(** * float8 training configuration: [torchao/float8/config.py]

    A shallow embedding of the configuration classes of
    [torchao.float8.config] and the properties of their construction-time
    validation.

    The Python objects of class [CastConfig] live in a store and are
    referred to by location, because [Float8LinearConfig.__post_init__]
    writes the [target_dtype] attribute of the very objects it was given
    (through [object.__setattr__]); two fields that hold the same object
    therefore see each other's writes.  Computations are functions from the
    interpreter state to an outcome and a new state; a raised exception
    keeps the writes made before it. *)

From stdpp Require Import base option list strings.
From Stdlib Require Import Lia.

Open Scope string_scope.
Open Scope list_scope.

(** ** Enumerations *)

Module ScalingType.
Inductive t : Set := DYNAMIC | DISABLED.

#[global] Instance eq_dec : EqDecision t.
Proof. solve_decision. Defined.

(** [self is other] on enumeration members. *)
Definition is_ (a b : t) : bool := bool_decide (a = b).

Definition value (self : t) : string :=
  match self with
  | DYNAMIC => "dynamic"
  | DISABLED => "disabled"
  end.

(** The [else] branch asserts [self is DISABLED], which holds of the
    only other member. *)
Definition short_str (self : t) : string :=
  if is_ self DYNAMIC then "dyn" else "dis".
End ScalingType.

Module ScalingGranularity.
Inductive t : Set := TENSORWISE | AXISWISE.

#[global] Instance eq_dec : EqDecision t.
Proof. solve_decision. Defined.

Definition is_ (a b : t) : bool := bool_decide (a = b).

Definition value (self : t) : string :=
  match self with
  | TENSORWISE => "tensorwise"
  | AXISWISE => "axiswise"
  end.

(** [str(member)], as it appears in an f-string. *)
Definition str (self : t) : string :=
  match self with
  | TENSORWISE => "ScalingGranularity.TENSORWISE"
  | AXISWISE => "ScalingGranularity.AXISWISE"
  end.

(** The [else] branch asserts [self is AXISWISE], which holds of the
    only other member. *)
Definition short_str (self : t) : string :=
  if is_ self TENSORWISE then "ten" else "axs".
End ScalingGranularity.

Module Float8LinearRecipeName.
Inductive t : Set := TENSORWISE | ROWWISE | ROWWISE_WITH_GW_HP.

#[global] Instance eq_dec : EqDecision t.
Proof. solve_decision. Defined.

Definition value (self : t) : string :=
  match self with
  | TENSORWISE => "tensorwise"
  | ROWWISE => "rowwise"
  | ROWWISE_WITH_GW_HP => "rowwise_with_gw_hp"
  end.

(** Iteration over the class, in definition order. *)
Definition members : list t := [TENSORWISE; ROWWISE; ROWWISE_WITH_GW_HP].

(** [Float8LinearRecipeName(s)]: lookup of a member by value. *)
Definition of_value (s : string) : option t :=
  List.find (fun m => bool_decide (value m = s)) members.
End Float8LinearRecipeName.

(** ** [torch.dtype]

    The dtype objects belong to PyTorch, not to this package.  The members
    below are PyTorch's dtypes with the two attributes that
    [CastConfig.__post_init__] reads. *)

Module torch.
Inductive dtype : Set :=
| float8_e4m3fn | float8_e5m2 | float8_e4m3fnuz | float8_e5m2fnuz
| float8_e8m0fnu
| float16 | bfloat16 | float32 | float64
| complex64 | complex128
| uint8 | int8 | int16 | int32 | int64 | bool_.

#[global] Instance dtype_eq_dec : EqDecision dtype.
Proof. solve_decision. Defined.

Definition is_floating_point (d : dtype) : bool :=
  match d with
  | float8_e4m3fn | float8_e5m2 | float8_e4m3fnuz | float8_e5m2fnuz
  | float8_e8m0fnu | float16 | bfloat16 | float32 | float64 => true
  | _ => false
  end.

(** Size of one element, in bytes. *)
Definition itemsize (d : dtype) : nat :=
  match d with
  | float8_e4m3fn | float8_e5m2 | float8_e4m3fnuz | float8_e5m2fnuz
  | float8_e8m0fnu | uint8 | int8 | bool_ => 1
  | float16 | bfloat16 | int16 => 2
  | float32 | int32 => 4
  | float64 | complex64 | int64 => 8
  | complex128 => 16
  end.
End torch.

(** The facts about the machine that [Float8TypeConfig.__post_init__]
    asks for: [torch.version.hip], [torch.cuda.is_available()] and
    [torchao.utils.is_MI300()]. *)
Record Platform : Set := mkPlatform {
  version_hip : bool;
  cuda_is_available : bool;
  is_MI300 : bool
}.

(** ** [Float8TypeConfig] *)

Record Float8TypeConfig : Set := mkFloat8TypeConfig {
  tc_e4m3_dtype : torch.dtype;
  tc_e5m2_dtype : torch.dtype
}.

(** The class attributes, overridden on the instance by [__post_init__]
    on an MI300. *)
Definition Float8TypeConfig_new (pf : Platform) : Float8TypeConfig :=
  let self := mkFloat8TypeConfig torch.float8_e4m3fn torch.float8_e5m2 in
  if version_hip pf && cuda_is_available pf && is_MI300 pf
  then mkFloat8TypeConfig torch.float8_e4m3fnuz torch.float8_e5m2fnuz
  else self.

(** ** Interpreter state, exceptions and the computation monad *)

Record CastConfig : Set := mkCastConfig {
  scaling_type : ScalingType.t;
  scaling_granularity : ScalingGranularity.t;
  target_dtype : option torch.dtype
}.

#[global] Instance CastConfig_eq_dec : EqDecision CastConfig.
Proof. solve_decision. Defined.

(** A reference to a [CastConfig] object: its index in the store. *)
Abbreviation ref := nat (only parsing).

Record PyState : Set := mkPyState {
  heap : list CastConfig;   (* the CastConfig objects, by reference *)
  log : list string         (* what [logger.warning] was called with *)
}.

Inductive PyExc : Set :=
| AssertionError (msg : string)
| KeyError (key : option torch.dtype)
| ValueError (msg : string)
| DanglingReference (r : ref).   (* no Python program can produce one *)

Inductive PyResult (A : Type) : Type :=
| Ok (a : A)
| Raise (e : PyExc).
Arguments Ok {A} a.
Arguments Raise {A} e.

Definition Py (A : Type) : Type := PyState -> PyResult A * PyState.

#[global] Instance Py_ret : MRet Py := fun A a s => (Ok a, s).
#[global] Instance Py_bind : MBind Py := fun A B f m s =>
  match m s with
  | (Ok a, s') => f a s'
  | (Raise e, s') => (Raise e, s')
  end.

Definition raise {A} (e : PyExc) : Py A := fun s => (Raise e, s).

(** [assert cond, msg] *)
Definition assert_ (cond : bool) (msg : string) : Py unit :=
  if cond then mret tt else raise (AssertionError msg).

(** Creation of a new object. *)
Definition alloc (o : CastConfig) : Py ref := fun s =>
  (Ok (length (heap s)), mkPyState (heap s ++ [o]) (log s)).

(** Reading an object through a reference. *)
Definition deref (r : ref) : Py CastConfig := fun s =>
  match heap s !! r with
  | Some o => (Ok o, s)
  | None => (Raise (DanglingReference r), s)
  end.

(** [object.__setattr__(r, "target_dtype", d)] *)
Definition setattr_target_dtype (r : ref) (d : torch.dtype) : Py unit := fun s =>
  match heap s !! r with
  | Some o =>
      (Ok tt,
       mkPyState
         (<[r := mkCastConfig (scaling_type o) (scaling_granularity o) (Some d)]>
            (heap s))
         (log s))
  | None => (Raise (DanglingReference r), s)
  end.

Definition logger_warning (msg : string) : Py unit := fun s =>
  (Ok tt, mkPyState (heap s) (log s ++ [msg])).

(** [for x in xs: body(x)] *)
Fixpoint for_each {A} (xs : list A) (body : A -> Py unit) : Py unit :=
  match xs with
  | [] => mret tt
  | x :: xs' => body x;; for_each xs' body
  end.

(** ** Python dictionaries with insertion order *)

Section dict.
Context {K V : Type} `{EqDecision K}.

Fixpoint dict_set (d : list (K * V)) (k : K) (v : V) : list (K * V) :=
  match d with
  | [] => [(k, v)]
  | (k', v') :: d' =>
      if decide (k' = k) then (k', v) :: d' else (k', v') :: dict_set d' k v
  end.

(** A dict display [{k1: v1, k2: v2, ...}]: later items win. *)
Definition dict_display (items : list (K * V)) : list (K * V) :=
  fold_left (fun d kv => dict_set d kv.1 kv.2) items [].

Fixpoint dict_get (d : list (K * V)) (k : K) : option V :=
  match d with
  | [] => None
  | (k', v) :: d' => if decide (k' = k) then Some v else dict_get d' k
  end.
End dict.

(** [repr] of a [str] that has no quote, backslash or non-printable
    character, and of a list of such. *)
Definition repr_str (s : string) : string := "'" +:+ s +:+ "'".

Definition repr_list (xs : list string) : string :=
  "[" +:+ String.concat ", " (map repr_str xs) +:+ "]".

(** ** [Float8GemmConfig] *)

Record Float8GemmConfig : Set := mkFloat8GemmConfig {
  use_fast_accum : bool
}.

#[global] Instance Float8GemmConfig_eq_dec : EqDecision Float8GemmConfig.
Proof. solve_decision. Defined.

(** ** [Float8LinearConfig]: the fields of an instance *)

Record Float8LinearConfig : Set := mkFloat8LinearConfig {
  cast_config_input : ref;
  cast_config_input_for_grad_weight : option ref;
  cast_config_weight : ref;
  cast_config_weight_for_grad_input : option ref;
  cast_config_grad_output : ref;
  cast_config_grad_output_for_grad_weight : option ref;
  gemm_config_output : Float8GemmConfig;
  gemm_config_grad_input : Float8GemmConfig;
  gemm_config_grad_weight : Float8GemmConfig;
  enable_fsdp_float8_all_gather : bool;
  pad_inner_dim : bool;
  emulate : bool;
  force_recompute_fp8_weight_in_bwd : bool;
  round_scales_to_power_of_2 : bool
}.

#[global] Instance Float8LinearConfig_eq_dec : EqDecision Float8LinearConfig.
Proof. solve_decision. Defined.

(** [object.__setattr__(self, name, r)] for the three override fields. *)
Definition set_input_for_grad_weight (self : Float8LinearConfig) (r : ref) :=
  mkFloat8LinearConfig
    (cast_config_input self) (Some r)
    (cast_config_weight self) (cast_config_weight_for_grad_input self)
    (cast_config_grad_output self) (cast_config_grad_output_for_grad_weight self)
    (gemm_config_output self) (gemm_config_grad_input self)
    (gemm_config_grad_weight self) (enable_fsdp_float8_all_gather self)
    (pad_inner_dim self) (emulate self)
    (force_recompute_fp8_weight_in_bwd self) (round_scales_to_power_of_2 self).

Definition set_weight_for_grad_input (self : Float8LinearConfig) (r : ref) :=
  mkFloat8LinearConfig
    (cast_config_input self) (cast_config_input_for_grad_weight self)
    (cast_config_weight self) (Some r)
    (cast_config_grad_output self) (cast_config_grad_output_for_grad_weight self)
    (gemm_config_output self) (gemm_config_grad_input self)
    (gemm_config_grad_weight self) (enable_fsdp_float8_all_gather self)
    (pad_inner_dim self) (emulate self)
    (force_recompute_fp8_weight_in_bwd self) (round_scales_to_power_of_2 self).

Definition set_grad_output_for_grad_weight (self : Float8LinearConfig) (r : ref) :=
  mkFloat8LinearConfig
    (cast_config_input self) (cast_config_input_for_grad_weight self)
    (cast_config_weight self) (cast_config_weight_for_grad_input self)
    (cast_config_grad_output self) (Some r)
    (gemm_config_output self) (gemm_config_grad_input self)
    (gemm_config_grad_weight self) (enable_fsdp_float8_all_gather self)
    (pad_inner_dim self) (emulate self)
    (force_recompute_fp8_weight_in_bwd self) (round_scales_to_power_of_2 self).

(** The value of an override attribute once step 1 of [__post_init__]
    has run: the override if one was given, the primary object otherwise. *)
Definition override_or (primary : ref) (override : option ref) : ref :=
  match override with
  | None => primary
  | Some r => r
  end.

(** The three [CastConfig()] objects that the class body creates as field
    defaults, once, when the module is imported: they are the first three
    objects of the store. *)
Definition default_cast_config_input : ref := 0.
Definition default_cast_config_weight : ref := 1.
Definition default_cast_config_grad_output : ref := 2.

(** The field defaults of the class. *)
Definition Float8LinearConfig_defaults : Float8LinearConfig := {|
  cast_config_input := default_cast_config_input;
  cast_config_input_for_grad_weight := None;
  cast_config_weight := default_cast_config_weight;
  cast_config_weight_for_grad_input := None;
  cast_config_grad_output := default_cast_config_grad_output;
  cast_config_grad_output_for_grad_weight := None;
  gemm_config_output := mkFloat8GemmConfig true;
  gemm_config_grad_input := mkFloat8GemmConfig false;
  gemm_config_grad_weight := mkFloat8GemmConfig false;
  enable_fsdp_float8_all_gather := false;
  pad_inner_dim := false;
  emulate := false;
  force_recompute_fp8_weight_in_bwd := false;
  round_scales_to_power_of_2 := false
|}.

Definition deprecation_warning : string :=
  "`config.force_recompute_fp8_weight_in_bwd` is deprecated and will be removed in a future release. Please see https://github.com/pytorch/ao/issues/2251 for more details.".

(** The argument of [from_recipe_name]: a member or a [str]. *)
Inductive RecipeArg : Set :=
| ByMember (m : Float8LinearRecipeName.t)
| ByStr (s : string).

Section Config.

(** The machine the module is imported on. *)
Variable pf : Platform.

Definition type_config : Float8TypeConfig := Float8TypeConfig_new pf.
Definition e4m3_dtype : torch.dtype := tc_e4m3_dtype type_config.
Definition e5m2_dtype : torch.dtype := tc_e5m2_dtype type_config.

(** *** [CastConfig] *)

(** [CastConfig.__post_init__], on the field values. *)
Definition CastConfig_post_init (self : CastConfig) : Py unit :=
  (if ScalingGranularity.is_ (scaling_granularity self) ScalingGranularity.AXISWISE
   then assert_ (ScalingType.is_ (scaling_type self) ScalingType.DYNAMIC)
          "only dynamic scaling type is supported for axiswise scaling granularity"
   else mret tt);;
  assert_
    (match target_dtype self with
     | None => true
     | Some d => torch.is_floating_point d && bool_decide (torch.itemsize d = 1)
     end)
    "must specify a 8-bit floating-point dtype".

(** [CastConfig(scaling_type, scaling_granularity, target_dtype)]; the
    defaults of the three parameters are [DYNAMIC], [TENSORWISE] and
    [None].  The object exists for the caller only if [__post_init__]
    returns. *)
Definition CastConfig_new (st : ScalingType.t) (g : ScalingGranularity.t)
    (d : option torch.dtype) : Py ref :=
  let self := mkCastConfig st g d in
  CastConfig_post_init self;;
  alloc self.

(** [CastConfig()] *)
Definition CastConfig_default : Py ref :=
  CastConfig_new ScalingType.DYNAMIC ScalingGranularity.TENSORWISE None.

Definition CastConfig_short_str (self : ref) : Py string :=
  o ← deref self;
  match
    dict_get
      (dict_display [(Some e4m3_dtype, "e4m3"); (Some e5m2_dtype, "e5m2")])
      (target_dtype o)
  with
  | None => raise (KeyError (target_dtype o))
  | Some dtype =>
      mret (ScalingType.short_str (scaling_type o) +:+ "_" +:+
            ScalingGranularity.short_str (scaling_granularity o) +:+ "_" +:+
            dtype)
  end.

(** *** [Float8LinearConfig.__post_init__] *)

(** Body of the loop over the three gemms.  Both flags are read from
    [cc1]; [cc2] is bound by the loop and not used. *)
Definition check_gemm_operands (it : ref * ref * string) : Py unit :=
  let '(cc1, cc2, gemm_name) := it in
  o1 ← deref cc1;
  let is_disabled_1 := ScalingType.is_ (scaling_type o1) ScalingType.DISABLED in
  o1' ← deref cc1;
  let is_disabled_2 := ScalingType.is_ (scaling_type o1') ScalingType.DISABLED in
  assert_ (bool_decide (is_disabled_1 = is_disabled_2))
    ("incompatible operand precision for " +:+ gemm_name).

(** Body of the loop over the three operands. *)
Definition resolve_operand_dtype (it : ref * ref * string * torch.dtype) : Py unit :=
  let '(cc1, cc2, operand_name, default_dtype) := it in
  o1 ← deref cc1;
  (if target_dtype o1 is None
   then setattr_target_dtype cc1 default_dtype
   else mret tt);;
  o2 ← deref cc2;
  (if target_dtype o2 is None
   then setattr_target_dtype cc2 default_dtype
   else mret tt);;
  o1 ← deref cc1;
  o2 ← deref cc2;
  assert_ (bool_decide (target_dtype o1 = target_dtype o2))
    (operand_name +:+ " must be cast to the same dtype in both matmuls it's used in").

(** Step 1: populate the additional cast overrides, if the user did not
    specify them. *)
Definition populate_cast_overrides (self : Float8LinearConfig)
    : Float8LinearConfig :=
  let self :=
    if cast_config_input_for_grad_weight self is None
    then set_input_for_grad_weight self (cast_config_input self)
    else self in
  let self :=
    if cast_config_weight_for_grad_input self is None
    then set_weight_for_grad_input self (cast_config_weight self)
    else self in
  if cast_config_grad_output_for_grad_weight self is None
  then set_grad_output_for_grad_weight self (cast_config_grad_output self)
  else self.

(** Step 2: float8 all-gather only supports tensorwise. *)
Definition check_fsdp_all_gather (self : Float8LinearConfig) : Py unit :=
  w ← deref (cast_config_weight self);
  if negb (bool_decide (scaling_granularity w = ScalingGranularity.TENSORWISE))
  then assert_ (negb (enable_fsdp_float8_all_gather self))
         ("enable_fsdp_float8_all_gather only supports tensorwise scaling granularity, got "
          +:+ ScalingGranularity.str (scaling_granularity w))
  else mret tt.

(** The local names [cc_i], [cc_w], [cc_go], [cc_i_gw], [cc_w_gi] and
    [cc_go_gw], read from [self] after step 1. *)
Definition cc_i (self : Float8LinearConfig) : ref := cast_config_input self.
Definition cc_w (self : Float8LinearConfig) : ref := cast_config_weight self.
Definition cc_go (self : Float8LinearConfig) : ref := cast_config_grad_output self.
Definition cc_i_gw (self : Float8LinearConfig) : ref :=
  override_or (cast_config_input self) (cast_config_input_for_grad_weight self).
Definition cc_w_gi (self : Float8LinearConfig) : ref :=
  override_or (cast_config_weight self) (cast_config_weight_for_grad_input self).
Definition cc_go_gw (self : Float8LinearConfig) : ref :=
  override_or (cast_config_grad_output self)
    (cast_config_grad_output_for_grad_weight self).

(** The tuples the two loops run over. *)
Definition gemm_operands (self : Float8LinearConfig) : list (ref * ref * string) :=
  [(cc_i self, cc_w self, "output");
   (cc_go self, cc_w_gi self, "grad_input");
   (cc_i_gw self, cc_go_gw self, "grad_weight")].

Definition operand_dtypes (self : Float8LinearConfig)
    : list (ref * ref * string * torch.dtype) :=
  [(cc_i self, cc_i_gw self, "input", e4m3_dtype);
   (cc_w self, cc_w_gi self, "weight", e4m3_dtype);
   (cc_go self, cc_go_gw self, "grad_output", e5m2_dtype)].

(** Step 5: the deprecated flag. *)
Definition warn_if_deprecated (self : Float8LinearConfig) : Py unit :=
  if force_recompute_fp8_weight_in_bwd self
  then logger_warning deprecation_warning
  else mret tt.

Definition Float8LinearConfig_post_init (self : Float8LinearConfig)
    : Py Float8LinearConfig :=
  let self := populate_cast_overrides self in
  check_fsdp_all_gather self;;
  for_each (gemm_operands self) check_gemm_operands;;
  for_each (operand_dtypes self) resolve_operand_dtype;;
  warn_if_deprecated self;;
  mret self.

(** [Float8LinearConfig(field=value, ...)]: the generated [__init__] stores the
    field values and calls [__post_init__]; the caller gets the instance
    as [__post_init__] left it. *)
Definition Float8LinearConfig_new (fields : Float8LinearConfig)
    : Py Float8LinearConfig :=
  Float8LinearConfig_post_init fields.

(** *** [Float8LinearConfig.from_recipe_name] *)

Definition valid_names : list string :=
  map Float8LinearRecipeName.value Float8LinearRecipeName.members.

(** The first [if] of the function: a [str] is checked against the
    values of the members and turned into the member. *)
Definition recipe_name_of_arg (recipe_name : RecipeArg)
    : Py Float8LinearRecipeName.t :=
  match recipe_name with
  | ByStr s =>
      assert_ (bool_decide (s ∈ valid_names))
        ("recipe_name " +:+ s +:+ " not in valid names " +:+ repr_list valid_names);;
      match Float8LinearRecipeName.of_value s with
      | Some m => mret m
      | None => raise (ValueError (repr_str s +:+ " is not a valid Float8LinearRecipeName"))
      end
  | ByMember m => mret m
  end.

(** The [if]/[elif] chain over the members.  The final [else], which
    raises for an unknown member, has no member left to run for. *)
Definition recipe_config (recipe_name : Float8LinearRecipeName.t)
    : Py Float8LinearConfig :=
  match recipe_name with
  | Float8LinearRecipeName.TENSORWISE =>
      Float8LinearConfig_new Float8LinearConfig_defaults
  | Float8LinearRecipeName.ROWWISE =>
      cc_i ← CastConfig_new ScalingType.DYNAMIC ScalingGranularity.AXISWISE (Some e4m3_dtype);
      cc_w ← CastConfig_new ScalingType.DYNAMIC ScalingGranularity.AXISWISE (Some e4m3_dtype);
      cc_go ← CastConfig_new ScalingType.DYNAMIC ScalingGranularity.AXISWISE (Some e4m3_dtype);
      Float8LinearConfig_new
        {| cast_config_input := cc_i;
           cast_config_input_for_grad_weight := None;
           cast_config_weight := cc_w;
           cast_config_weight_for_grad_input := None;
           cast_config_grad_output := cc_go;
           cast_config_grad_output_for_grad_weight := None;
           gemm_config_output := gemm_config_output Float8LinearConfig_defaults;
           gemm_config_grad_input := gemm_config_grad_input Float8LinearConfig_defaults;
           gemm_config_grad_weight := gemm_config_grad_weight Float8LinearConfig_defaults;
           enable_fsdp_float8_all_gather := false;
           pad_inner_dim := false;
           emulate := false;
           force_recompute_fp8_weight_in_bwd := false;
           round_scales_to_power_of_2 := true |}
  | Float8LinearRecipeName.ROWWISE_WITH_GW_HP =>
      cc_i ← CastConfig_new ScalingType.DYNAMIC ScalingGranularity.AXISWISE None;
      cc_w ← CastConfig_new ScalingType.DYNAMIC ScalingGranularity.AXISWISE None;
      cc_go ← CastConfig_new ScalingType.DYNAMIC ScalingGranularity.AXISWISE (Some e4m3_dtype);
      cc_w_gi ← CastConfig_new ScalingType.DYNAMIC ScalingGranularity.TENSORWISE None;
      cc_i_gw ← CastConfig_new ScalingType.DISABLED ScalingGranularity.TENSORWISE None;
      cc_go_gw ← CastConfig_new ScalingType.DISABLED ScalingGranularity.TENSORWISE (Some e4m3_dtype);
      Float8LinearConfig_new
        {| cast_config_input := cc_i;
           cast_config_input_for_grad_weight := Some cc_i_gw;
           cast_config_weight := cc_w;
           cast_config_weight_for_grad_input := Some cc_w_gi;
           cast_config_grad_output := cc_go;
           cast_config_grad_output_for_grad_weight := Some cc_go_gw;
           gemm_config_output := gemm_config_output Float8LinearConfig_defaults;
           gemm_config_grad_input := gemm_config_grad_input Float8LinearConfig_defaults;
           gemm_config_grad_weight := gemm_config_grad_weight Float8LinearConfig_defaults;
           enable_fsdp_float8_all_gather := false;
           pad_inner_dim := false;
           emulate := false;
           force_recompute_fp8_weight_in_bwd := false;
           round_scales_to_power_of_2 := false |}
  end.

Definition from_recipe_name (recipe_name : RecipeArg) : Py Float8LinearConfig :=
  recipe_name ← recipe_name_of_arg recipe_name;
  recipe_config recipe_name.

(** *** Import of the module *)

(** The class body of [Float8LinearConfig] evaluates its three
    [CastConfig()] defaults. *)
Definition module_import : Py (ref * ref * ref) :=
  a ← CastConfig_default;
  b ← CastConfig_default;
  c ← CastConfig_default;
  mret (a, b, c).

Definition state_after_import : PyState :=
  (module_import (mkPyState [] [])).2.

End Config.

(** ** Vocabulary of the statements *)

Definition is_Ok {A} (r : PyResult A) : bool :=
  match r with Ok _ => true | Raise _ => false end.

(** The target dtype of the object behind a reference. *)
Definition target_at (h : list CastConfig) (r : ref) : option torch.dtype :=
  h !! r ≫= target_dtype.

(** What the two conditional [object.__setattr__] calls of the dtype loop do
    to one object, and to the store. *)
Definition fill_dtype (d : torch.dtype) (o : CastConfig) : CastConfig :=
  if target_dtype o is None
  then mkCastConfig (scaling_type o) (scaling_granularity o) (Some d)
  else o.

Definition ensure_dtype (r : ref) (d : torch.dtype) (h : list CastConfig)
    : list CastConfig :=
  match h !! r with
  | Some o => <[r := fill_dtype d o]> h
  | None => h
  end.

(** The six descriptor objects of a configuration. *)
Definition input_descriptors (self : Float8LinearConfig) : list ref :=
  [cc_i self; cc_i_gw self].
Definition weight_descriptors (self : Float8LinearConfig) : list ref :=
  [cc_w self; cc_w_gi self].
Definition grad_output_descriptors (self : Float8LinearConfig) : list ref :=
  [cc_go self; cc_go_gw self].
Definition descriptors (self : Float8LinearConfig) : list ref :=
  input_descriptors self ++ weight_descriptors self ++ grad_output_descriptors self.

(** The (primary, override) pairs of the three logical operands. *)
Definition operand_pairs (self : Float8LinearConfig) : list (ref * ref) :=
  [(cc_i self, cc_i_gw self); (cc_w self, cc_w_gi self); (cc_go self, cc_go_gw self)].

(** An 8-bit floating-point dtype. *)
Definition is_float8 (d : torch.dtype) : bool :=
  torch.is_floating_point d && bool_decide (torch.itemsize d = 1).

(** The fields of a [Float8LinearConfig] call that sets the six descriptors
    and [enable_fsdp_float8_all_gather] and leaves the rest to the defaults. *)
Definition with_descriptors (i w go : ref) (i_gw w_gi go_gw : option ref)
    (fsdp : bool) : Float8LinearConfig := {|
  cast_config_input := i;
  cast_config_input_for_grad_weight := i_gw;
  cast_config_weight := w;
  cast_config_weight_for_grad_input := w_gi;
  cast_config_grad_output := go;
  cast_config_grad_output_for_grad_weight := go_gw;
  gemm_config_output := gemm_config_output Float8LinearConfig_defaults;
  gemm_config_grad_input := gemm_config_grad_input Float8LinearConfig_defaults;
  gemm_config_grad_weight := gemm_config_grad_weight Float8LinearConfig_defaults;
  enable_fsdp_float8_all_gather := fsdp;
  pad_inner_dim := false;
  emulate := false;
  force_recompute_fp8_weight_in_bwd := false;
  round_scales_to_power_of_2 := false
|}.

(** The same field values, with every reference moved up by [n]: the
    configuration as it reads when [n] older objects precede its own in
    the store. *)
Definition shift (n : nat) (self : Float8LinearConfig) : Float8LinearConfig := {|
  cast_config_input := n + cast_config_input self;
  cast_config_input_for_grad_weight :=
    (λ r, n + r) <$> cast_config_input_for_grad_weight self;
  cast_config_weight := n + cast_config_weight self;
  cast_config_weight_for_grad_input :=
    (λ r, n + r) <$> cast_config_weight_for_grad_input self;
  cast_config_grad_output := n + cast_config_grad_output self;
  cast_config_grad_output_for_grad_weight :=
    (λ r, n + r) <$> cast_config_grad_output_for_grad_weight self;
  gemm_config_output := gemm_config_output self;
  gemm_config_grad_input := gemm_config_grad_input self;
  gemm_config_grad_weight := gemm_config_grad_weight self;
  enable_fsdp_float8_all_gather := enable_fsdp_float8_all_gather self;
  pad_inner_dim := pad_inner_dim self;
  emulate := emulate self;
  force_recompute_fp8_weight_in_bwd := force_recompute_fp8_weight_in_bwd self;
  round_scales_to_power_of_2 := round_scales_to_power_of_2 self
|}.

(** Every descriptor of the configuration refers to an object of the store. *)
Definition valid_descriptors (h : list CastConfig) (self : Float8LinearConfig)
    : Prop :=
  Forall (λ x, is_Some (h !! x)) (descriptors self).

(** In every (primary, override) pair both objects have the same target
    dtype. *)
Definition pairs_agree (h : list CastConfig) (self : Float8LinearConfig) : Prop :=
  Forall (λ po, target_at h po.1 = target_at h po.2) (operand_pairs self).

(** The condition of step 2. *)
Definition fsdp_compatible (h : list CastConfig) (self : Float8LinearConfig)
    : Prop :=
  ∀ w, h !! cast_config_weight self = Some w →
       scaling_granularity w ≠ ScalingGranularity.TENSORWISE →
       enable_fsdp_float8_all_gather self = false.

(** What [logger.warning] receives during one construction. *)
Definition warnings_of (self : Float8LinearConfig) : list string :=
  if force_recompute_fp8_weight_in_bwd self then [deprecation_warning] else [].

(** How a store may differ after a construction from the store before it:
    no object is created, and an object is either as it was or, if it is one
    of [written] and had no target dtype, it has got one of [dtypes] and
    nothing else in it has changed. *)
Definition heap_frame (written : list ref) (dtypes : list torch.dtype)
    (h h' : list CastConfig) : Prop :=
  length h' = length h ∧
  ∀ l o, h !! l = Some o →
    h' !! l = Some o ∨
    (l ∈ written ∧ target_dtype o = None ∧
     ∃ d, d ∈ dtypes ∧
          h' !! l = Some (mkCastConfig (scaling_type o) (scaling_granularity o) (Some d))).

(** A computation that only logs nothing and changes the store within
    [heap_frame], whatever its outcome. *)
Definition frames (written : list ref) (dtypes : list torch.dtype) {A}
    (m : Py A) : Prop :=
  ∀ s, log (m s).2 = log s ∧ heap_frame written dtypes (heap s) (heap (m s).2).

Section Vocabulary.

Variable pf : Platform.

(** The store after the dtype loop has run to its end. *)
Definition resolved_heap (self : Float8LinearConfig) (h : list CastConfig)
    : list CastConfig :=
  ensure_dtype (cc_go_gw self) (e5m2_dtype pf)
    (ensure_dtype (cc_go self) (e5m2_dtype pf)
       (ensure_dtype (cc_w_gi self) (e4m3_dtype pf)
          (ensure_dtype (cc_w self) (e4m3_dtype pf)
             (ensure_dtype (cc_i_gw self) (e4m3_dtype pf)
                (ensure_dtype (cc_i self) (e4m3_dtype pf) h))))).


(** The claim that, in every successful construction, a descriptor whose
    target dtype was unset has the default of its operand afterwards. *)
Definition unset_dtype_gets_operand_default : Prop :=
  ∀ (fields c : Float8LinearConfig) (s s' : PyState),
    Float8LinearConfig_new pf fields s = (Ok c, s') →
    (∀ x, x ∈ input_descriptors c → target_at (heap s) x = None →
          target_at (heap s') x = Some (e4m3_dtype pf)) ∧
    (∀ x, x ∈ weight_descriptors c → target_at (heap s) x = None →
          target_at (heap s') x = Some (e4m3_dtype pf)) ∧
    (∀ x, x ∈ grad_output_descriptors c → target_at (heap s) x = None →
          target_at (heap s') x = Some (e5m2_dtype pf)).

End Vocabulary.

(** The store of a caller that has imported the module and created one
    descriptor of its own with [CastConfig()]. *)
Definition caller_state : PyState := (CastConfig_default state_after_import).2.
Definition caller_descriptor : ref := 3.

(** The same, with two descriptors that ask for different target dtypes. *)
Definition mismatch_state : PyState :=
  ((CastConfig_new ScalingType.DYNAMIC ScalingGranularity.TENSORWISE
      (Some torch.float8_e4m3fn);;
    CastConfig_new ScalingType.DYNAMIC ScalingGranularity.TENSORWISE
      (Some torch.float8_e5m2)) state_after_import).2.

(** The same, with one axiswise descriptor. *)
Definition axiswise_state : PyState :=
  (CastConfig_new ScalingType.DYNAMIC ScalingGranularity.AXISWISE None
     state_after_import).2.

(** The field values that the two rowwise recipes pass to
    [Float8LinearConfig], when the descriptors they create are the objects
    0, 1, 2, ... in creation order. *)
Definition rowwise_fields : Float8LinearConfig := {|
  cast_config_input := 0;
  cast_config_input_for_grad_weight := None;
  cast_config_weight := 1;
  cast_config_weight_for_grad_input := None;
  cast_config_grad_output := 2;
  cast_config_grad_output_for_grad_weight := None;
  gemm_config_output := gemm_config_output Float8LinearConfig_defaults;
  gemm_config_grad_input := gemm_config_grad_input Float8LinearConfig_defaults;
  gemm_config_grad_weight := gemm_config_grad_weight Float8LinearConfig_defaults;
  enable_fsdp_float8_all_gather := false;
  pad_inner_dim := false;
  emulate := false;
  force_recompute_fp8_weight_in_bwd := false;
  round_scales_to_power_of_2 := true
|}.

Definition rowwise_with_gw_hp_fields : Float8LinearConfig :=
  with_descriptors 0 1 2 (Some 4) (Some 3) (Some 5) false.

(** Two machines: one where the OCP types are preferred, and an MI300. *)
Definition cuda_machine : Platform := mkPlatform false true false.
Definition mi300_machine : Platform := mkPlatform true true true.

(** ** Vocabulary of the further properties *)

(** What [CastConfig.__post_init__] asserts of an object. *)
Definition cast_config_ok (o : CastConfig) : Prop :=
  (scaling_granularity o = ScalingGranularity.AXISWISE →
   scaling_type o = ScalingType.DYNAMIC) ∧
  from_option is_float8 true (target_dtype o) = true.

(** Every object of the store is as [CastConfig.__post_init__] wants it. *)
Definition store_ok (h : list CastConfig) : Prop := Forall cast_config_ok h.

(** The three field defaults of the class are in the store, with the
    scaling type and granularity that [CastConfig()] gave them. *)
Definition has_class_defaults (h : list CastConfig) : Prop :=
  Forall
    (λ r, ∃ o, h !! r = Some o ∧ scaling_type o = ScalingType.DYNAMIC ∧
               scaling_granularity o = ScalingGranularity.TENSORWISE)
    [default_cast_config_input; default_cast_config_weight;
     default_cast_config_grad_output].

(** Whether the object behind a reference has scaling [DISABLED]. *)
Definition disabled_at (h : list CastConfig) (r : ref) : option bool :=
  (λ o, ScalingType.is_ (scaling_type o) ScalingType.DISABLED) <$> h !! r.

(** Both operands of each of the three gemms are in float8, or both are in
    high precision. *)
Definition gemm_operands_agree (h : list CastConfig) (self : Float8LinearConfig)
    : Prop :=
  Forall (λ it, disabled_at h it.1.1 = disabled_at h it.1.2) (gemm_operands self).

(** The label that [short_str] builds, given the name of the dtype. *)
Definition short_label (o : CastConfig) (dtype : string) : string :=
  ScalingType.short_str (scaling_type o) +:+ "_" +:+
  ScalingGranularity.short_str (scaling_granularity o) +:+ "_" +:+ dtype.

(** The message of the assertion of the dtype loop. *)
Definition dtype_mismatch (operand_name : string) : PyExc :=
  AssertionError
    (operand_name +:+ " must be cast to the same dtype in both matmuls it's used in").

(** Two calls that pass the same six descriptors and the same
    [enable_fsdp_float8_all_gather]. *)
Definition same_descriptors (a b : Float8LinearConfig) : Prop :=
  cast_config_input a = cast_config_input b ∧
  cast_config_input_for_grad_weight a = cast_config_input_for_grad_weight b ∧
  cast_config_weight a = cast_config_weight b ∧
  cast_config_weight_for_grad_input a = cast_config_weight_for_grad_input b ∧
  cast_config_grad_output a = cast_config_grad_output b ∧
  cast_config_grad_output_for_grad_weight a
    = cast_config_grad_output_for_grad_weight b ∧
  enable_fsdp_float8_all_gather a = enable_fsdp_float8_all_gather b.

Section FurtherVocabulary.

Variable pf : Platform.

(** The store once the dtype loop has dealt with [input], and once it has
    dealt with [input] and [weight]. *)
Definition heap_after_input (self : Float8LinearConfig) (h : list CastConfig)
    : list CastConfig :=
  ensure_dtype (cc_i_gw self) (e4m3_dtype pf)
    (ensure_dtype (cc_i self) (e4m3_dtype pf) h).

Definition heap_after_weight (self : Float8LinearConfig) (h : list CastConfig)
    : list CastConfig :=
  ensure_dtype (cc_w_gi self) (e4m3_dtype pf)
    (ensure_dtype (cc_w self) (e4m3_dtype pf) (heap_after_input self h)).

End FurtherVocabulary.

(** ** The computation monad *)

Lemma bind_run {A B} (m : Py A) (f : A → Py B) (s : PyState) :
  (m ≫= f) s =
    match m s with
    | (Ok a, s1) => f a s1
    | (Raise e, s1) => (Raise e, s1)
    end.
Proof. reflexivity. Qed.

Lemma bind_Ok {A B} (m : Py A) (f : A → Py B) s a s1 :
  m s = (Ok a, s1) → (m ≫= f) s = f a s1.
Proof. intros H. by rewrite bind_run, H. Qed.

Lemma bind_Raise {A B} (m : Py A) (f : A → Py B) s e s1 :
  m s = (Raise e, s1) → (m ≫= f) s = (Raise e, s1).
Proof. intros H. by rewrite bind_run, H. Qed.

Lemma bind_Ok_inv {A B} (m : Py A) (f : A → Py B) s b s' :
  (m ≫= f) s = (Ok b, s') → ∃ a s1, m s = (Ok a, s1) ∧ f a s1 = (Ok b, s').
Proof.
  rewrite bind_run. destruct (m s) as [[a|e] s1]; [eauto | discriminate].
Qed.

Lemma ret_run {A} (a : A) (s : PyState) : (mret a : Py A) s = (Ok a, s).
Proof. reflexivity. Qed.

Lemma state_eta (s : PyState) : mkPyState (heap s) (log s) = s.
Proof. by destruct s. Qed.

Lemma deref_Some r s o : heap s !! r = Some o → deref r s = (Ok o, s).
Proof. unfold deref. by intros ->. Qed.

Lemma deref_Ok_inv r s o s' :
  deref r s = (Ok o, s') → heap s !! r = Some o ∧ s' = s.
Proof.
  unfold deref. destruct (heap s !! r); intros [= <- <-] || intros [=]; done.
Qed.

Lemma assert_Ok_inv c msg s u s' :
  assert_ c msg s = (Ok u, s') → c = true ∧ s' = s.
Proof. destruct c; cbn; intros [= <-] || intros [=]; done. Qed.

(** ** Stores *)

Lemma lookup_snoc_plus (h suf : list CastConfig) (k : nat) :
  (h ++ suf) !! (length h + k) = suf !! k.
Proof. rewrite lookup_app_r by lia. f_equal. lia. Qed.

Lemma ensure_dtype_length r d h : length (ensure_dtype r d h) = length h.
Proof. unfold ensure_dtype. destruct (h !! r); [apply length_insert | done]. Qed.

Lemma ensure_dtype_lookup r d h l :
  ensure_dtype r d h !! l
  = (if decide (l = r) then fill_dtype d else id) <$> h !! l.
Proof.
  unfold ensure_dtype. destruct (h !! r) as [o|] eqn:E.
  - destruct (decide (l = r)) as [->|Hne].
    + rewrite list_lookup_insert_eq by (by eapply lookup_lt_Some). by rewrite E.
    + rewrite list_lookup_insert_ne by congruence. by destruct (h !! l).
  - destruct (decide (l = r)) as [->|Hne]; [by rewrite E | by destruct (h !! l)].
Qed.

Lemma ensure_dtype_is_Some r d h l :
  is_Some (ensure_dtype r d h !! l) ↔ is_Some (h !! l).
Proof. rewrite ensure_dtype_lookup. by rewrite fmap_is_Some. Qed.

Lemma target_at_ensure_set r d h l t :
  target_at h l = Some t → target_at (ensure_dtype r d h) l = Some t.
Proof.
  unfold target_at. rewrite ensure_dtype_lookup.
  destruct (h !! l) as [o|]; [|done]. cbn. intros Ht.
  destruct (decide (l = r)); [|done]. unfold fill_dtype. by rewrite Ht.
Qed.

Lemma target_at_ensure_ne r d h l :
  l ≠ r → target_at (ensure_dtype r d h) l = target_at h l.
Proof.
  intros Hne. unfold target_at. rewrite ensure_dtype_lookup.
  rewrite decide_False by done. by destruct (h !! l).
Qed.

Lemma target_at_ensure_unset r d h :
  is_Some (h !! r) → target_at h r = None →
  target_at (ensure_dtype r d h) r = Some d.
Proof.
  unfold target_at. rewrite ensure_dtype_lookup, decide_True by done.
  intros [o ->]. cbn. intros Ht. unfold fill_dtype. by rewrite Ht.
Qed.

Lemma target_at_ensure_is_Some r d h :
  is_Some (h !! r) → is_Some (target_at (ensure_dtype r d h) r).
Proof.
  intros Hr. destruct (target_at h r) as [t|] eqn:Ht.
  - exists t. by apply target_at_ensure_set.
  - exists d. by apply target_at_ensure_unset.
Qed.

Lemma ensure_dtype_resolved r d h :
  is_Some (target_at h r) → ensure_dtype r d h = h.
Proof.
  unfold target_at, ensure_dtype. destruct (h !! r) as [o|] eqn:E; [|done].
  cbn. intros [t Ht]. unfold fill_dtype. rewrite Ht. by apply list_insert_id.
Qed.

Lemma ensure_dtype_policy r d h l o' :
  ensure_dtype r d h !! l = Some o' →
  ∃ o, h !! l = Some o ∧ scaling_type o' = scaling_type o
       ∧ scaling_granularity o' = scaling_granularity o.
Proof.
  rewrite ensure_dtype_lookup. destruct (h !! l) as [o|]; [|done].
  cbn. intros [= <-]. exists o. split; [done|].
  destruct (decide (l = r)); [|done]. unfold fill_dtype.
  by destruct (target_dtype o).
Qed.

(** ** [CastConfig] construction *)

Lemma CastConfig_new_Ok st g d s :
  (g = ScalingGranularity.AXISWISE → st = ScalingType.DYNAMIC) →
  from_option is_float8 true d = true →
  CastConfig_new st g d s
  = (Ok (length (heap s)), mkPyState (heap s ++ [mkCastConfig st g d]) (log s)).
Proof.
  intros Hg Hd. unfold CastConfig_new, CastConfig_post_init.
  destruct g, st, d as [t|]; cbn in *; try (by specialize (Hg eq_refl));
    try reflexivity; unfold is_float8 in Hd; rewrite !bind_run; cbn;
    by rewrite Hd.
Qed.

Lemma float8_e4m3_dtype pf : is_float8 (e4m3_dtype pf) = true.
Proof. by destruct pf as [[] [] []]. Qed.

Lemma float8_e5m2_dtype pf : is_float8 (e5m2_dtype pf) = true.
Proof. by destruct pf as [[] [] []]. Qed.

Lemma e4m3_ne_e5m2 pf : e4m3_dtype pf ≠ e5m2_dtype pf.
Proof. by destruct pf as [[] [] []]. Qed.

(** ** The steps of [Float8LinearConfig.__post_init__] *)

Lemma populate_cast_overrides_idem self :
  populate_cast_overrides (populate_cast_overrides self)
  = populate_cast_overrides self.
Proof.
  destruct self as [i [i_gw|] w [w_gi|] go [go_gw|] ? ? ? ? ? ? ? ?]; reflexivity.
Qed.

Lemma populate_cast_overrides_refs self :
  cc_i (populate_cast_overrides self) = cc_i self ∧
  cc_i_gw (populate_cast_overrides self) = cc_i_gw self ∧
  cc_w (populate_cast_overrides self) = cc_w self ∧
  cc_w_gi (populate_cast_overrides self) = cc_w_gi self ∧
  cc_go (populate_cast_overrides self) = cc_go self ∧
  cc_go_gw (populate_cast_overrides self) = cc_go_gw self.
Proof.
  destruct self as [i [i_gw|] w [w_gi|] go [go_gw|] ? ? ? ? ? ? ? ?];
    repeat split; reflexivity.
Qed.

Lemma check_fsdp_all_gather_run self s :
  check_fsdp_all_gather self s =
    match heap s !! cast_config_weight self with
    | None => (Raise (DanglingReference (cast_config_weight self)), s)
    | Some w =>
        if bool_decide (scaling_granularity w = ScalingGranularity.TENSORWISE)
           || negb (enable_fsdp_float8_all_gather self)
        then (Ok tt, s)
        else (Raise (AssertionError
                ("enable_fsdp_float8_all_gather only supports tensorwise scaling granularity, got "
                 +:+ ScalingGranularity.str (scaling_granularity w))), s)
    end.
Proof.
  unfold check_fsdp_all_gather. rewrite bind_run. unfold deref.
  destruct (heap s !! cast_config_weight self) as [w|]; [|done].
  destruct (bool_decide _); [done|]. cbn.
  by destruct (enable_fsdp_float8_all_gather self).
Qed.

Lemma check_gemm_operands_run cc1 cc2 gemm_name s :
  check_gemm_operands (cc1, cc2, gemm_name) s =
    match heap s !! cc1 with
    | None => (Raise (DanglingReference cc1), s)
    | Some _ => (Ok tt, s)
    end.
Proof.
  unfold check_gemm_operands. rewrite bind_run. unfold deref.
  destruct (heap s !! cc1) as [o1|] eqn:E; [|done].
  rewrite bind_run. unfold deref. rewrite E.
  by rewrite bool_decide_eq_true_2.
Qed.

Lemma check_gemms_Ok self s :
  is_Some (heap s !! cc_i self) → is_Some (heap s !! cc_go self) →
  is_Some (heap s !! cc_i_gw self) →
  for_each (gemm_operands self) check_gemm_operands s = (Ok tt, s).
Proof.
  intros [? Hi] [? Hgo] [? Higw]. unfold gemm_operands. cbn [for_each].
  rewrite bind_run, check_gemm_operands_run, Hi.
  rewrite bind_run, check_gemm_operands_run, Hgo.
  by rewrite bind_run, check_gemm_operands_run, Higw.
Qed.

Lemma check_gemms_Ok_inv self s u s' :
  for_each (gemm_operands self) check_gemm_operands s = (Ok u, s') →
  s' = s ∧ is_Some (heap s !! cc_i self) ∧ is_Some (heap s !! cc_go self)
  ∧ is_Some (heap s !! cc_i_gw self).
Proof.
  unfold gemm_operands. cbn [for_each].
  rewrite bind_run, check_gemm_operands_run.
  destruct (heap s !! cc_i self); [|done].
  rewrite bind_run, check_gemm_operands_run.
  destruct (heap s !! cc_go self); [|done].
  rewrite bind_run, check_gemm_operands_run.
  destruct (heap s !! cc_i_gw self); [|done].
  intros [= <-]. eauto.
Qed.

Lemma ensure_step r d s o :
  heap s !! r = Some o →
  (if target_dtype o is None then setattr_target_dtype r d else mret tt) s
  = (Ok tt, mkPyState (ensure_dtype r d (heap s)) (log s)).
Proof.
  intros E. unfold ensure_dtype, setattr_target_dtype, fill_dtype. rewrite E.
  destruct (target_dtype o); [|by rewrite E].
  rewrite list_insert_id by done. by rewrite state_eta.
Qed.

Lemma resolve_operand_dtype_run cc1 cc2 operand_name d s :
  resolve_operand_dtype (cc1, cc2, operand_name, d) s =
    match heap s !! cc1 with
    | None => (Raise (DanglingReference cc1), s)
    | Some _ =>
        let h1 := ensure_dtype cc1 d (heap s) in
        match h1 !! cc2 with
        | None => (Raise (DanglingReference cc2), mkPyState h1 (log s))
        | Some _ =>
            let h2 := ensure_dtype cc2 d h1 in
            (if bool_decide (target_at h2 cc1 = target_at h2 cc2)
             then Ok tt
             else Raise (AssertionError
                    (operand_name +:+
                     " must be cast to the same dtype in both matmuls it's used in")),
             mkPyState h2 (log s))
        end
    end.
Proof.
  unfold resolve_operand_dtype. rewrite bind_run. unfold deref at 1.
  destruct (heap s !! cc1) as [o1|] eqn:E1; [|done].
  rewrite bind_run, (ensure_step _ _ _ _ E1).
  set (h1 := ensure_dtype cc1 d (heap s)).
  rewrite bind_run. unfold deref at 1. cbn [heap log].
  destruct (h1 !! cc2) as [o2|] eqn:E2; [|done].
  rewrite bind_run, (ensure_step cc2 d (mkPyState h1 (log s)) o2 E2).
  cbn [heap log]. set (h2 := ensure_dtype cc2 d h1). cbv zeta.
  assert (is_Some (h2 !! cc1)) as [o1' E1'].
  { apply ensure_dtype_is_Some, ensure_dtype_is_Some. by exists o1. }
  assert (is_Some (h2 !! cc2)) as [o2' E2'].
  { apply ensure_dtype_is_Some. by exists o2. }
  rewrite bind_run. unfold deref at 1. cbn [heap log]. rewrite E1'.
  rewrite bind_run. unfold deref at 1. cbn [heap log]. rewrite E2'.
  unfold target_at. rewrite E1', E2'. cbn.
  by destruct (bool_decide (target_dtype o1' = target_dtype o2')).
Qed.

Lemma target_at_ensure_keep r d h l :
  is_Some (target_at h l) → target_at (ensure_dtype r d h) l = target_at h l.
Proof. intros [t Ht]. rewrite Ht. by apply target_at_ensure_set. Qed.

Lemma target_at_is_Some_valid h l : is_Some (target_at h l) → is_Some (h !! l).
Proof. unfold target_at. destruct (h !! l); [eauto | by intros [? ?]]. Qed.

(** After one operand has been dealt with, both of its objects have a
    target dtype. *)
Lemma pair_resolved p o d h :
  is_Some (h !! p) → is_Some (h !! o) →
  is_Some (target_at (ensure_dtype o d (ensure_dtype p d h)) p) ∧
  is_Some (target_at (ensure_dtype o d (ensure_dtype p d h)) o).
Proof.
  intros Hp Ho. split.
  - rewrite target_at_ensure_keep; by apply target_at_ensure_is_Some.
  - apply target_at_ensure_is_Some. by apply ensure_dtype_is_Some.
Qed.

Section Steps.

Variable pf : Platform.

Lemma valid_descriptors_populate h self :
  valid_descriptors h (populate_cast_overrides self) ↔ valid_descriptors h self.
Proof.
  unfold valid_descriptors, descriptors, input_descriptors,
    weight_descriptors, grad_output_descriptors.
  destruct (populate_cast_overrides_refs self) as (-> & -> & -> & -> & -> & ->).
  done.
Qed.

Lemma resolved_heap_populate self h :
  resolved_heap pf (populate_cast_overrides self) h = resolved_heap pf self h.
Proof.
  unfold resolved_heap.
  destruct (populate_cast_overrides_refs self) as (-> & -> & -> & -> & -> & ->).
  done.
Qed.

Lemma pairs_agree_populate h self :
  pairs_agree h (populate_cast_overrides self) ↔ pairs_agree h self.
Proof.
  unfold pairs_agree, operand_pairs.
  destruct (populate_cast_overrides_refs self) as (-> & -> & -> & -> & -> & ->).
  done.
Qed.

Lemma valid_descriptors_unfold h self :
  valid_descriptors h self ↔
    is_Some (h !! cc_i self) ∧ is_Some (h !! cc_i_gw self) ∧
    is_Some (h !! cc_w self) ∧ is_Some (h !! cc_w_gi self) ∧
    is_Some (h !! cc_go self) ∧ is_Some (h !! cc_go_gw self).
Proof.
  unfold valid_descriptors, descriptors, input_descriptors,
    weight_descriptors, grad_output_descriptors. cbn [app].
  rewrite !Forall_cons, Forall_nil. tauto.
Qed.

Lemma pairs_agree_unfold h self :
  pairs_agree h self ↔
    target_at h (cc_i self) = target_at h (cc_i_gw self) ∧
    target_at h (cc_w self) = target_at h (cc_w_gi self) ∧
    target_at h (cc_go self) = target_at h (cc_go_gw self).
Proof.
  unfold pairs_agree, operand_pairs.
  rewrite !Forall_cons, Forall_nil. cbn [fst snd]. tauto.
Qed.

Lemma resolved_heap_length self h : length (resolved_heap pf self h) = length h.
Proof. unfold resolved_heap. by rewrite !ensure_dtype_length. Qed.

Lemma resolved_heap_is_Some self h l :
  is_Some (resolved_heap pf self h !! l) ↔ is_Some (h !! l).
Proof. unfold resolved_heap. by rewrite !ensure_dtype_is_Some. Qed.

(** In a store where all six objects exist, every one of them has a
    target dtype once the loop is over, and it is the one it had when its
    operand had been dealt with. *)
Lemma resolved_heap_targets self h :
  valid_descriptors h self →
  let h1 := ensure_dtype (cc_i_gw self) (e4m3_dtype pf)
              (ensure_dtype (cc_i self) (e4m3_dtype pf) h) in
  let h2 := ensure_dtype (cc_w_gi self) (e4m3_dtype pf)
              (ensure_dtype (cc_w self) (e4m3_dtype pf) h1) in
  let h3 := resolved_heap pf self h in
  (target_at h3 (cc_i self) = target_at h1 (cc_i self) ∧
   target_at h3 (cc_i_gw self) = target_at h1 (cc_i_gw self) ∧
   target_at h3 (cc_w self) = target_at h2 (cc_w self) ∧
   target_at h3 (cc_w_gi self) = target_at h2 (cc_w_gi self)) ∧
  Forall (λ x, is_Some (target_at h3 x)) (descriptors self).
Proof.
  rewrite valid_descriptors_unfold.
  intros (Hi & Higw & Hw & Hwgi & Hgo & Hgogw) h1 h2 h3.
  destruct (pair_resolved (cc_i self) (cc_i_gw self) (e4m3_dtype pf) h Hi Higw)
    as [S1 S2]. fold h1 in S1, S2.
  assert (∀ x, is_Some (h1 !! x) ↔ is_Some (h !! x)) as V1.
  { intros x. unfold h1. by rewrite !ensure_dtype_is_Some. }
  destruct (pair_resolved (cc_w self) (cc_w_gi self) (e4m3_dtype pf) h1) as [S3 S4];
    [by apply V1 | by apply V1 |]. fold h2 in S3, S4.
  assert (∀ x, is_Some (h2 !! x) ↔ is_Some (h !! x)) as V2.
  { intros x. unfold h2. by rewrite !ensure_dtype_is_Some, V1. }
  destruct (pair_resolved (cc_go self) (cc_go_gw self) (e5m2_dtype pf) h2) as [S5 S6];
    [by apply V2 | by apply V2 |]. change (ensure_dtype _ _ (ensure_dtype _ _ h2)) with h3 in S5, S6.
  assert (∀ x, is_Some (target_at h1 x) → target_at h2 x = target_at h1 x) as K12.
  { intros x Hx. unfold h2. rewrite !target_at_ensure_keep; [done..|].
    by rewrite target_at_ensure_keep. }
  assert (∀ x, is_Some (target_at h2 x) → target_at h3 x = target_at h2 x) as K23.
  { intros x Hx. unfold h3, resolved_heap. fold h1. fold h2.
    rewrite !target_at_ensure_keep; [done..|]. by rewrite target_at_ensure_keep. }
  assert (target_at h3 (cc_i self) = target_at h1 (cc_i self)) as E1.
  { rewrite K23, K12; [done..|]. by rewrite K12. }
  assert (target_at h3 (cc_i_gw self) = target_at h1 (cc_i_gw self)) as E2.
  { rewrite K23, K12; [done..|]. by rewrite K12. }
  assert (target_at h3 (cc_w self) = target_at h2 (cc_w self)) as E3 by by apply K23.
  assert (target_at h3 (cc_w_gi self) = target_at h2 (cc_w_gi self)) as E4 by by apply K23.
  split; [done|].
  unfold descriptors, input_descriptors, weight_descriptors,
    grad_output_descriptors. cbn [app].
  rewrite !Forall_cons, Forall_nil. rewrite E1, E2, E3, E4. tauto.
Qed.

End Steps.

Section Construction.

Variable pf : Platform.

Lemma populate_cast_overrides_flags self :
  cast_config_weight (populate_cast_overrides self) = cast_config_weight self ∧
  enable_fsdp_float8_all_gather (populate_cast_overrides self)
    = enable_fsdp_float8_all_gather self ∧
  force_recompute_fp8_weight_in_bwd (populate_cast_overrides self)
    = force_recompute_fp8_weight_in_bwd self.
Proof.
  destruct self as [i [i_gw|] w [w_gi|] go [go_gw|] ? ? ? ? ? ? ? ?];
    repeat split; reflexivity.
Qed.

Lemma resolve_dtypes_Ok_inv self s u s' :
  for_each (operand_dtypes pf self) resolve_operand_dtype s = (Ok u, s') →
  valid_descriptors (heap s) self ∧
  pairs_agree (resolved_heap pf self (heap s)) self ∧
  s' = mkPyState (resolved_heap pf self (heap s)) (log s).
Proof.
  unfold operand_dtypes. cbn [for_each].
  rewrite bind_run, resolve_operand_dtype_run.
  destruct (heap s !! cc_i self) as [oi|] eqn:Ei; [|done]. cbv zeta.
  destruct (ensure_dtype (cc_i self) _ (heap s) !! cc_i_gw self)
    as [oigw|] eqn:Eigw; [|done].
  case_bool_decide as A1; [|done].
  set (h1 := ensure_dtype (cc_i_gw self) _ _) in *.
  rewrite bind_run, resolve_operand_dtype_run. cbn [heap log].
  destruct (h1 !! cc_w self) as [ow|] eqn:Ew; [|done]. cbv zeta.
  destruct (ensure_dtype (cc_w self) _ h1 !! cc_w_gi self)
    as [owgi|] eqn:Ewgi; [|done].
  case_bool_decide as A2; [|done].
  set (h2 := ensure_dtype (cc_w_gi self) _ _) in *.
  rewrite bind_run, resolve_operand_dtype_run. cbn [heap log].
  destruct (h2 !! cc_go self) as [ogo|] eqn:Ego; [|done]. cbv zeta.
  destruct (ensure_dtype (cc_go self) _ h2 !! cc_go_gw self)
    as [ogogw|] eqn:Egogw; [|done].
  case_bool_decide as A3; [|done].
  intros [= <-].
  assert (valid_descriptors (heap s) self) as V.
  { apply valid_descriptors_unfold.
    assert (∀ x, is_Some (h1 !! x) ↔ is_Some (heap s !! x)) as V1.
    { intros x. unfold h1. by rewrite !ensure_dtype_is_Some. }
    assert (∀ x, is_Some (h2 !! x) ↔ is_Some (heap s !! x)) as V2.
    { intros x. unfold h2. by rewrite !ensure_dtype_is_Some. }
    repeat split.
    - by eexists.
    - eapply (ensure_dtype_is_Some (cc_i self)). by eexists.
    - apply V1. by eexists.
    - apply V1. eapply (ensure_dtype_is_Some (cc_w self)). by eexists.
    - apply V2. by eexists.
    - apply V2. eapply (ensure_dtype_is_Some (cc_go self)). by eexists. }
  split; [done|]. split; [|done].
  destruct (resolved_heap_targets pf self (heap s) V) as [(E1 & E2 & E3 & E4) _].
  apply pairs_agree_unfold. fold h1 in E1, E2. fold h2 in E3, E4.
  by rewrite E1, E2, E3, E4.
Qed.

Lemma resolve_dtypes_Ok self s :
  valid_descriptors (heap s) self →
  pairs_agree (resolved_heap pf self (heap s)) self →
  for_each (operand_dtypes pf self) resolve_operand_dtype s
  = (Ok tt, mkPyState (resolved_heap pf self (heap s)) (log s)).
Proof.
  intros V A.
  destruct (resolved_heap_targets pf self (heap s) V) as [(E1 & E2 & E3 & E4) _].
  apply pairs_agree_unfold in A. rewrite E1, E2, E3, E4 in A.
  destruct A as (A1 & A2 & A3).
  apply valid_descriptors_unfold in V.
  destruct V as (Hi & Higw & Hw & Hwgi & Hgo & Hgogw).
  unfold operand_dtypes. cbn [for_each].
  rewrite bind_run, resolve_operand_dtype_run.
  destruct Hi as [oi ->]. cbv zeta.
  apply (ensure_dtype_is_Some (cc_i self) (e4m3_dtype pf)) in Higw as [oigw ->].
  rewrite bool_decide_eq_true_2 by done.
  set (h1 := ensure_dtype (cc_i_gw self) _ _) in *.
  assert (∀ x, is_Some (h1 !! x) ↔ is_Some (heap s !! x)) as V1.
  { intros x. unfold h1. by rewrite !ensure_dtype_is_Some. }
  rewrite bind_run, resolve_operand_dtype_run. cbn [heap log].
  apply V1 in Hw as [ow ->]. cbv zeta.
  apply V1, (ensure_dtype_is_Some (cc_w self) (e4m3_dtype pf)) in Hwgi as [owgi ->].
  rewrite bool_decide_eq_true_2 by done.
  set (h2 := ensure_dtype (cc_w_gi self) _ _) in *.
  assert (∀ x, is_Some (h2 !! x) ↔ is_Some (heap s !! x)) as V2.
  { intros x. unfold h2. by rewrite !ensure_dtype_is_Some. }
  rewrite bind_run, resolve_operand_dtype_run. cbn [heap log].
  apply V2 in Hgo as [ogo ->]. cbv zeta.
  apply V2, (ensure_dtype_is_Some (cc_go self) (e5m2_dtype pf)) in Hgogw as [ogogw ->].
  by rewrite bool_decide_eq_true_2 by done.
Qed.

(** A construction that returns: what it needed, and what it did. *)
Lemma post_init_Ok_inv self s c s' :
  Float8LinearConfig_post_init pf self s = (Ok c, s') →
  valid_descriptors (heap s) self ∧
  fsdp_compatible (heap s) self ∧
  pairs_agree (resolved_heap pf self (heap s)) self ∧
  c = populate_cast_overrides self ∧
  s' = mkPyState (resolved_heap pf self (heap s)) (log s ++ warnings_of self).
Proof.
  unfold Float8LinearConfig_post_init.
  destruct (populate_cast_overrides_flags self) as (Ew & Ef & Er).
  intros H. apply bind_Ok_inv in H as (u1 & s1 & H1 & H).
  rewrite check_fsdp_all_gather_run, Ew, Ef in H1.
  destruct (heap s !! cast_config_weight self) as [w|] eqn:Hw; [|done].
  destruct (bool_decide _ || _) eqn:Hc; [|done]. injection H1 as <- <-.
  apply bind_Ok_inv in H as (u2 & s2 & H2 & H).
  apply check_gemms_Ok_inv in H2 as (-> & _).
  apply bind_Ok_inv in H as (u3 & s3 & H3 & H).
  apply resolve_dtypes_Ok_inv in H3 as (V & A & ->).
  rewrite resolved_heap_populate in *.
  apply (proj1 (valid_descriptors_populate _ _)) in V.
  apply (proj1 (pairs_agree_populate _ _)) in A.
  apply bind_Ok_inv in H as (u4 & s4 & H4 & H).
  injection H as <- <-.
  repeat split; try done.
  - intros w' Hw' Hg. rewrite Hw in Hw'. injection Hw' as <-.
    apply orb_true_iff in Hc as [Hc|Hc].
    + by apply bool_decide_eq_true in Hc.
    + by apply negb_true_iff in Hc.
  - unfold warn_if_deprecated, warnings_of in *. rewrite Er in H4.
    destruct (force_recompute_fp8_weight_in_bwd self).
    + by injection H4 as <-.
    + injection H4 as <-. cbn [heap log]. by rewrite app_nil_r.
Qed.

(** The converse: when the conditions hold, construction returns. *)
Lemma post_init_Ok self s :
  valid_descriptors (heap s) self →
  fsdp_compatible (heap s) self →
  pairs_agree (resolved_heap pf self (heap s)) self →
  Float8LinearConfig_post_init pf self s
  = (Ok (populate_cast_overrides self),
     mkPyState (resolved_heap pf self (heap s)) (log s ++ warnings_of self)).
Proof.
  intros V F A. unfold Float8LinearConfig_post_init.
  destruct (populate_cast_overrides_flags self) as (Ew & Ef & Er).
  rewrite bind_run, check_fsdp_all_gather_run, Ew, Ef.
  pose proof V as V'. apply valid_descriptors_unfold in V'.
  destruct V' as (Hi & Higw & Hw & Hwgi & Hgo & Hgogw).
  destruct Hw as [w Hw]. unfold cc_w in Hw. rewrite Hw.
  assert (bool_decide (scaling_granularity w = ScalingGranularity.TENSORWISE)
          || negb (enable_fsdp_float8_all_gather self) = true) as ->.
  { case_bool_decide as Hg; [done|]. cbn. by rewrite (F w Hw Hg). }
  destruct (populate_cast_overrides_refs self) as (Ri & Rigw & _ & _ & Rgo & _).
  rewrite bind_run, check_gemms_Ok; [| by rewrite ?Ri, ?Rigw, ?Rgo ..].
  rewrite bind_run, resolve_dtypes_Ok.
  2: by apply valid_descriptors_populate.
  2: by rewrite resolved_heap_populate; apply pairs_agree_populate.
  rewrite resolved_heap_populate, bind_run.
  unfold warn_if_deprecated, warnings_of. rewrite Er.
  destruct (force_recompute_fp8_weight_in_bwd self); cbn; [done|].
  by rewrite app_nil_r.
Qed.

End Construction.

(** ** Frame of the validation pass *)

Lemma heap_frame_refl F ds h : heap_frame F ds h h.
Proof. split; [done|]. intros l o Hl. by left. Qed.

Lemma heap_frame_trans F ds h1 h2 h3 :
  heap_frame F ds h1 h2 → heap_frame F ds h2 h3 → heap_frame F ds h1 h3.
Proof.
  intros [L12 H12] [L23 H23]. split; [congruence|].
  intros l o Hl. destruct (H12 l o Hl) as [H2|(HF & Hn & d & Hd & H2)].
  - exact (H23 l o H2).
  - destruct (H23 l _ H2) as [H3|(_ & Hn' & _)]; [|done].
    right. eauto 10.
Qed.

Lemma heap_frame_ensure F ds r d h :
  r ∈ F → d ∈ ds → heap_frame F ds h (ensure_dtype r d h).
Proof.
  intros HF Hd. split; [apply ensure_dtype_length|].
  intros l o Hl. rewrite ensure_dtype_lookup, Hl. cbn.
  destruct (decide (l = r)) as [->|]; [|by left].
  unfold fill_dtype. destruct (target_dtype o) eqn:Ht; [by left|].
  right. repeat split; [done..|]. eauto.
Qed.

Lemma frames_ret F ds {A} (a : A) : frames F ds (mret a : Py A).
Proof. intros s. split; [done | apply heap_frame_refl]. Qed.

Lemma frames_raise F ds {A} e : frames F ds (raise e : Py A).
Proof. intros s. split; [done | apply heap_frame_refl]. Qed.

Lemma frames_bind F ds {A B} (m : Py A) (f : A → Py B) :
  frames F ds m → (∀ a, frames F ds (f a)) → frames F ds (m ≫= f).
Proof.
  intros Hm Hf s. rewrite bind_run. specialize (Hm s).
  destruct (m s) as [[a|e] s1]; cbn [snd] in *; [|done].
  destruct Hm as [Lm Fm]. destruct (Hf a s1) as [Lf Ff].
  split; [congruence | by eapply heap_frame_trans].
Qed.

Lemma frames_for_each F ds {A} (xs : list A) (body : A → Py unit) :
  (∀ x, x ∈ xs → frames F ds (body x)) → frames F ds (for_each xs body).
Proof.
  induction xs as [|x xs IH]; intros Hb; cbn [for_each].
  - apply frames_ret.
  - apply frames_bind.
    + apply Hb. by left.
    + intros _. apply IH. intros y Hy. apply Hb. by right.
Qed.

Lemma frames_check_fsdp_all_gather F ds self : frames F ds (check_fsdp_all_gather self).
Proof.
  intros s. rewrite check_fsdp_all_gather_run.
  destruct (heap s !! _); [destruct (_ || _)|]; (split; [done | apply heap_frame_refl]).
Qed.

Lemma frames_check_gemm_operands F ds it : frames F ds (check_gemm_operands it).
Proof.
  destruct it as [[cc1 cc2] gemm_name]. intros s.
  rewrite check_gemm_operands_run.
  destruct (heap s !! _); (split; [done | apply heap_frame_refl]).
Qed.

Lemma frames_resolve_operand_dtype F ds cc1 cc2 operand_name d :
  cc1 ∈ F → cc2 ∈ F → d ∈ ds →
  frames F ds (resolve_operand_dtype (cc1, cc2, operand_name, d)).
Proof.
  intros H1 H2 Hd s. rewrite resolve_operand_dtype_run.
  destruct (heap s !! cc1); [|split; [done | apply heap_frame_refl]].
  cbv zeta. destruct (ensure_dtype cc1 d (heap s) !! cc2).
  - split; [done|]. cbn [snd heap].
    eapply heap_frame_trans; by apply heap_frame_ensure.
  - split; [done|]. cbn [snd heap]. by apply heap_frame_ensure.
Qed.

Lemma frames_warn_if_deprecated_heap self s :
  heap (warn_if_deprecated self s).2 = heap s ∧
  warn_if_deprecated self s
  = (Ok tt, mkPyState (heap s) (log s ++ warnings_of self)).
Proof.
  unfold warn_if_deprecated, warnings_of.
  destruct (force_recompute_fp8_weight_in_bwd self); cbn; [done|].
  by rewrite app_nil_r, state_eta.
Qed.

Lemma elem_of_descriptors_populate self x :
  x ∈ descriptors (populate_cast_overrides self) ↔ x ∈ descriptors self.
Proof.
  unfold descriptors, input_descriptors, weight_descriptors,
    grad_output_descriptors.
  destruct (populate_cast_overrides_refs self) as (-> & -> & -> & -> & -> & ->).
  done.
Qed.

Lemma operand_dtypes_elem pf self cc1 cc2 operand_name d :
  (cc1, cc2, operand_name, d) ∈ operand_dtypes pf self →
  cc1 ∈ descriptors self ∧ cc2 ∈ descriptors self
  ∧ d ∈ [e4m3_dtype pf; e5m2_dtype pf].
Proof.
  unfold operand_dtypes, descriptors, input_descriptors, weight_descriptors,
    grad_output_descriptors. cbn [app].
  rewrite !elem_of_cons, !elem_of_nil.
  intros [[= -> -> _ ->]|[[= -> -> _ ->]|[[= -> -> _ ->]|[]]]]; tauto.
Qed.

(** ** Target dtypes after the dtype loop *)

Lemma target_at_ensure r d h x :
  is_Some (h !! x) →
  target_at (ensure_dtype r d h) x
  = match target_at h x with
    | Some t => Some t
    | None => if decide (x = r) then Some d else None
    end.
Proof.
  intros Hx. destruct (target_at h x) as [t|] eqn:Ht.
  - by apply target_at_ensure_set.
  - destruct (decide (x = r)) as [->|Hne].
    + by apply target_at_ensure_unset.
    + by rewrite target_at_ensure_ne.
Qed.

Section Resolution.

Variable pf : Platform.

Lemma target_at_resolved_set self h x t :
  target_at h x = Some t → target_at (resolved_heap pf self h) x = Some t.
Proof. intros Ht. unfold resolved_heap. by do 6 apply target_at_ensure_set. Qed.

(** The target dtype of an object after the loop, from the one before. *)
Lemma target_at_resolved self h x :
  is_Some (h !! x) →
  target_at (resolved_heap pf self h) x
  = match target_at h x with
    | Some t => Some t
    | None =>
        if decide (x ∈ input_descriptors self ++ weight_descriptors self)
        then Some (e4m3_dtype pf)
        else if decide (x ∈ grad_output_descriptors self)
             then Some (e5m2_dtype pf)
             else None
    end.
Proof.
  intros Hx. destruct (target_at h x) as [t|] eqn:Ht.
  { by apply target_at_resolved_set. }
  unfold resolved_heap.
  rewrite !target_at_ensure by (by rewrite ?ensure_dtype_is_Some).
  rewrite Ht. unfold input_descriptors, weight_descriptors,
    grad_output_descriptors. cbn [app].
  repeat (destruct (decide _) as [?|?]); try done; exfalso;
    repeat match goal with
           | H : _ ∈ _ |- _ => rewrite !elem_of_cons, elem_of_nil in H
           | H : _ ∉ _ |- _ => rewrite !not_elem_of_cons in H
           end;
    intuition congruence.
Qed.

Lemma resolved_heap_policy self h l o' :
  resolved_heap pf self h !! l = Some o' →
  ∃ o, h !! l = Some o ∧ scaling_type o' = scaling_type o
       ∧ scaling_granularity o' = scaling_granularity o.
Proof.
  unfold resolved_heap. intros H.
  repeat (apply ensure_dtype_policy in H as (? & H & -> & ->)).
  eauto.
Qed.

Lemma resolved_heap_idem self h :
  valid_descriptors h self →
  resolved_heap pf self (resolved_heap pf self h) = resolved_heap pf self h.
Proof.
  intros V. destruct (resolved_heap_targets pf self h V) as [_ S].
  unfold descriptors, input_descriptors, weight_descriptors,
    grad_output_descriptors in S. cbn [app] in S.
  rewrite !Forall_cons in S. destruct S as (S1 & S2 & S3 & S4 & S5 & S6 & _).
  set (h' := resolved_heap pf self h) in *.
  unfold resolved_heap at 1.
  rewrite (ensure_dtype_resolved (cc_i self)) by done.
  rewrite (ensure_dtype_resolved (cc_i_gw self)) by done.
  rewrite (ensure_dtype_resolved (cc_w self)) by done.
  rewrite (ensure_dtype_resolved (cc_w_gi self)) by done.
  rewrite (ensure_dtype_resolved (cc_go self)) by done.
  by rewrite (ensure_dtype_resolved (cc_go_gw self)) by done.
Qed.

End Resolution.

(** ** Configurations over fresh objects *)

Lemma CastConfig_new_fresh st g d h suf lg :
  (g = ScalingGranularity.AXISWISE → st = ScalingType.DYNAMIC) →
  from_option is_float8 true d = true →
  CastConfig_new st g d (mkPyState (h ++ suf) lg)
  = (Ok (length h + length suf),
     mkPyState (h ++ (suf ++ [mkCastConfig st g d])) lg).
Proof.
  intros Hg Hd. rewrite CastConfig_new_Ok by done. cbn [heap log].
  by rewrite length_app, app_assoc.
Qed.

Lemma target_at_fresh h suf k : target_at (h ++ suf) (length h + k) = target_at suf k.
Proof. unfold target_at. by rewrite lookup_snoc_plus. Qed.

Lemma ensure_dtype_fresh h suf k d :
  ensure_dtype (length h + k) d (h ++ suf) = h ++ ensure_dtype k d suf.
Proof.
  unfold ensure_dtype. rewrite lookup_snoc_plus.
  destruct (suf !! k); [apply insert_app_r | done].
Qed.

Lemma shift_refs n self :
  cc_i (shift n self) = n + cc_i self ∧
  cc_i_gw (shift n self) = n + cc_i_gw self ∧
  cc_w (shift n self) = n + cc_w self ∧
  cc_w_gi (shift n self) = n + cc_w_gi self ∧
  cc_go (shift n self) = n + cc_go self ∧
  cc_go_gw (shift n self) = n + cc_go_gw self.
Proof.
  destruct self as [i [i_gw|] w [w_gi|] go [go_gw|] ? ? ? ? ? ? ? ?];
    repeat split; reflexivity.
Qed.

Lemma populate_cast_overrides_shift n self :
  populate_cast_overrides (shift n self) = shift n (populate_cast_overrides self).
Proof.
  destruct self as [i [i_gw|] w [w_gi|] go [go_gw|] ? ? ? ? ? ? ? ?]; reflexivity.
Qed.

Lemma fsdp_compatible_off h self :
  enable_fsdp_float8_all_gather self = false → fsdp_compatible h self.
Proof. by intros H w _ _. Qed.

Lemma fsdp_compatible_tensorwise h self w :
  h !! cast_config_weight self = Some w →
  scaling_granularity w = ScalingGranularity.TENSORWISE →
  fsdp_compatible h self.
Proof. intros Hw Hg w' Hw' Hg'. congruence. Qed.

Section Fresh.

Variable pf : Platform.

Lemma resolved_heap_shift h suf self :
  resolved_heap pf (shift (length h) self) (h ++ suf)
  = h ++ resolved_heap pf self suf.
Proof.
  unfold resolved_heap.
  destruct (shift_refs (length h) self) as (-> & -> & -> & -> & -> & ->).
  by rewrite !ensure_dtype_fresh.
Qed.

(** Construction over objects that sit at the end of the store goes as it
    does in a store that has nothing else in it. *)
Lemma post_init_fresh h suf lg self :
  valid_descriptors suf self →
  fsdp_compatible suf self →
  pairs_agree (resolved_heap pf self suf) self →
  Float8LinearConfig_post_init pf (shift (length h) self) (mkPyState (h ++ suf) lg)
  = (Ok (shift (length h) (populate_cast_overrides self)),
     mkPyState (h ++ resolved_heap pf self suf) (lg ++ warnings_of self)).
Proof.
  intros V F A.
  destruct (shift_refs (length h) self) as (Ri & Rigw & Rw & Rwgi & Rgo & Rgogw).
  rewrite post_init_Ok; cbn [heap log].
  - by rewrite populate_cast_overrides_shift, resolved_heap_shift.
  - apply valid_descriptors_unfold. apply valid_descriptors_unfold in V.
    rewrite Ri, Rigw, Rw, Rwgi, Rgo, Rgogw. by rewrite !lookup_snoc_plus.
  - intros w Hw Hg. change (cast_config_weight (shift (length h) self))
      with (length h + cast_config_weight self) in Hw.
    rewrite lookup_snoc_plus in Hw. by apply (F w).
  - rewrite resolved_heap_shift. apply pairs_agree_unfold.
    apply pairs_agree_unfold in A.
    rewrite Ri, Rigw, Rw, Rwgi, Rgo, Rgogw. by rewrite !target_at_fresh.
Qed.

End Fresh.

(** The three defaults of the class are the objects 0, 1 and 2. *)
Lemma module_import_defaults :
  module_import (mkPyState [] [])
  = (Ok (default_cast_config_input, default_cast_config_weight,
         default_cast_config_grad_output),
     state_after_import).
Proof. reflexivity. Qed.

(** ** What the dtype loop writes *)

Lemma resolve_dtypes_run pf self s :
  valid_descriptors (heap s) self →
  for_each (operand_dtypes pf self) resolve_operand_dtype s =
    let h1 := heap_after_input pf self (heap s) in
    let h2 := heap_after_weight pf self (heap s) in
    let h3 := resolved_heap pf self (heap s) in
    if decide (target_at h1 (cc_i self) = target_at h1 (cc_i_gw self)) then
      if decide (target_at h2 (cc_w self) = target_at h2 (cc_w_gi self)) then
        if decide (target_at h3 (cc_go self) = target_at h3 (cc_go_gw self)) then
          (Ok tt, mkPyState h3 (log s))
        else (Raise (dtype_mismatch "grad_output"), mkPyState h3 (log s))
      else (Raise (dtype_mismatch "weight"), mkPyState h2 (log s))
    else (Raise (dtype_mismatch "input"), mkPyState h1 (log s)).
Proof.
  intros V. apply valid_descriptors_unfold in V.
  destruct V as (Hi & Higw & Hw & Hwgi & Hgo & Hgogw).
  cbv zeta. unfold resolved_heap, heap_after_weight, heap_after_input.
  unfold operand_dtypes. cbn [for_each].
  rewrite bind_run, resolve_operand_dtype_run.
  destruct Hi as [oi ->]. cbv zeta.
  apply (ensure_dtype_is_Some (cc_i self) (e4m3_dtype pf)) in Higw as [oigw ->].
  set (h1 := ensure_dtype (cc_i_gw self) _ _) in *.
  assert (∀ x, is_Some (h1 !! x) ↔ is_Some (heap s !! x)) as V1.
  { intros x. unfold h1. by rewrite !ensure_dtype_is_Some. }
  destruct (decide (target_at h1 (cc_i self) = target_at h1 (cc_i_gw self)))
    as [A1|A1]; [rewrite bool_decide_eq_true_2 by done
                |by rewrite bool_decide_eq_false_2 by done].
  rewrite bind_run, resolve_operand_dtype_run. cbn [heap log].
  apply V1 in Hw as [ow ->]. cbv zeta.
  apply V1, (ensure_dtype_is_Some (cc_w self) (e4m3_dtype pf)) in Hwgi as [owgi ->].
  set (h2 := ensure_dtype (cc_w_gi self) _ _) in *.
  assert (∀ x, is_Some (h2 !! x) ↔ is_Some (heap s !! x)) as V2.
  { intros x. unfold h2. by rewrite !ensure_dtype_is_Some. }
  destruct (decide (target_at h2 (cc_w self) = target_at h2 (cc_w_gi self)))
    as [A2|A2]; [rewrite bool_decide_eq_true_2 by done
                |by rewrite bool_decide_eq_false_2 by done].
  rewrite bind_run, resolve_operand_dtype_run. cbn [heap log].
  apply V2 in Hgo as [ogo ->]. cbv zeta.
  apply V2, (ensure_dtype_is_Some (cc_go self) (e5m2_dtype pf)) in Hgogw as [ogogw ->].
  destruct (decide _) as [A3|A3];
    [by rewrite bool_decide_eq_true_2 by done
    |by rewrite bool_decide_eq_false_2 by done].
Qed.






(** ** Concrete runs *)

Example all_defaults_on_cuda :
  Float8LinearConfig_new cuda_machine Float8LinearConfig_defaults state_after_import
  = (Ok (with_descriptors 0 1 2 (Some 0) (Some 1) (Some 2) false
         : Float8LinearConfig),
     mkPyState
       [mkCastConfig ScalingType.DYNAMIC ScalingGranularity.TENSORWISE
          (Some torch.float8_e4m3fn);
        mkCastConfig ScalingType.DYNAMIC ScalingGranularity.TENSORWISE
          (Some torch.float8_e4m3fn);
        mkCastConfig ScalingType.DYNAMIC ScalingGranularity.TENSORWISE
          (Some torch.float8_e5m2)]
       []).
Proof. reflexivity. Qed.

Example all_defaults_on_mi300 :
  heap (Float8LinearConfig_new mi300_machine Float8LinearConfig_defaults
          state_after_import).2
  = [mkCastConfig ScalingType.DYNAMIC ScalingGranularity.TENSORWISE
       (Some torch.float8_e4m3fnuz);
     mkCastConfig ScalingType.DYNAMIC ScalingGranularity.TENSORWISE
       (Some torch.float8_e4m3fnuz);
     mkCastConfig ScalingType.DYNAMIC ScalingGranularity.TENSORWISE
       (Some torch.float8_e5m2fnuz)].
Proof. reflexivity. Qed.

Example tensorwise_recipe_is_all_defaults :
  from_recipe_name cuda_machine (ByStr "tensorwise") state_after_import
  = Float8LinearConfig_new cuda_machine Float8LinearConfig_defaults
      state_after_import.
Proof. reflexivity. Qed.

Example mismatched_input_dtypes_are_refused :
  Float8LinearConfig_new cuda_machine
    (with_descriptors 3 default_cast_config_weight
       default_cast_config_grad_output (Some 4) None None false)
    mismatch_state
  = (Raise (AssertionError
              "input must be cast to the same dtype in both matmuls it's used in"),
     mismatch_state).
Proof. reflexivity. Qed.

Example deprecated_flag_is_logged :
  log (Float8LinearConfig_new cuda_machine
         {| cast_config_input := default_cast_config_input;
            cast_config_input_for_grad_weight := None;
            cast_config_weight := default_cast_config_weight;
            cast_config_weight_for_grad_input := None;
            cast_config_grad_output := default_cast_config_grad_output;
            cast_config_grad_output_for_grad_weight := None;
            gemm_config_output := mkFloat8GemmConfig true;
            gemm_config_grad_input := mkFloat8GemmConfig false;
            gemm_config_grad_weight := mkFloat8GemmConfig false;
            enable_fsdp_float8_all_gather := false;
            pad_inner_dim := false;
            emulate := false;
            force_recompute_fp8_weight_in_bwd := true;
            round_scales_to_power_of_2 := false |}
         state_after_import).2
  = [deprecation_warning].
Proof. reflexivity. Qed.

Example short_str_of_resolved_descriptor :
  (x ← CastConfig_new ScalingType.DISABLED ScalingGranularity.TENSORWISE
         (Some torch.float8_e5m2);
   CastConfig_short_str cuda_machine x) state_after_import
  = (Ok "dis_ten_e5m2",
     mkPyState
       (heap state_after_import ++
        [mkCastConfig ScalingType.DISABLED ScalingGranularity.TENSORWISE
           (Some torch.float8_e5m2)])
       []).
Proof. reflexivity. Qed.

(** ** The claims *)




(** C3, as stated, does not hold.  A caller creates one descriptor with
    [CastConfig()] and passes it both as [cast_config_input] and as
    [cast_config_grad_output].  Construction succeeds; the object is given
    the e4m3 type when the loop deals with [input], so that the unset target
    dtype of the [grad_output] descriptor ends as e4m3, not as e5m2. *)
Lemma shared_descriptor_gets_first_default :
  ¬ unset_dtype_gets_operand_default cuda_machine.
Proof.
  intros H.
  pose (fields := with_descriptors caller_descriptor default_cast_config_weight
                    caller_descriptor None None None false).
  destruct (H fields (populate_cast_overrides fields) caller_state
              (Float8LinearConfig_new cuda_machine fields caller_state).2 eq_refl)
    as (_ & _ & Hgo).
  specialize (Hgo caller_descriptor).
  vm_compute in Hgo.
  discriminate Hgo; [by left | reflexivity].
Qed.

(** C3, amended.  In every successful construction: a descriptor of [input]
    or [weight] whose target dtype was unset has the preferred e4m3 type
    afterwards; a descriptor of [grad_output] whose target dtype was unset
    has the preferred e5m2 type afterwards, unless the same object is also
    a descriptor of [input] or [weight] (it then has the e4m3 type); a
    target dtype that was set is kept; and the primary and the override
    descriptor of each operand have the same target dtype.  Construction
    fails when the two target dtypes of a pair are set and differ. *)
Theorem dtype_resolution (pf : Platform) (fields : Float8LinearConfig)
    (s : PyState) :
  (∀ c s', Float8LinearConfig_new pf fields s = (Ok c, s') →
     (∀ x, x ∈ input_descriptors c ++ weight_descriptors c →
           target_at (heap s) x = None →
           target_at (heap s') x = Some (e4m3_dtype pf)) ∧
     (∀ x, x ∈ grad_output_descriptors c →
           x ∉ input_descriptors c ++ weight_descriptors c →
           target_at (heap s) x = None →
           target_at (heap s') x = Some (e5m2_dtype pf)) ∧
     (∀ x t, target_at (heap s) x = Some t → target_at (heap s') x = Some t) ∧
     (∀ p o, (p, o) ∈ operand_pairs c →
           ∃ t, target_at (heap s') p = Some t ∧ target_at (heap s') o = Some t)) ∧
  (∀ p o a b, (p, o) ∈ operand_pairs fields →
     target_at (heap s) p = Some a → target_at (heap s) o = Some b → a ≠ b →
     is_Ok (Float8LinearConfig_new pf fields s).1 = false).
Proof.
  unfold Float8LinearConfig_new. split.
  - intros c s' H. apply post_init_Ok_inv in H as (V & _ & A & -> & ->).
    cbn [heap].
    assert (∀ x, x ∈ descriptors fields → is_Some (heap s !! x)) as Vx.
    { intros x. revert V. unfold valid_descriptors. rewrite Forall_forall. auto. }
    unfold input_descriptors, weight_descriptors, grad_output_descriptors,
      operand_pairs.
    destruct (populate_cast_overrides_refs fields) as (-> & -> & -> & -> & -> & ->).
    fold (input_descriptors fields) (weight_descriptors fields)
      (grad_output_descriptors fields).
    repeat split.
    + intros x Hx Ht. rewrite target_at_resolved, Ht.
      * by rewrite decide_True.
      * apply Vx. unfold descriptors. rewrite app_assoc. apply elem_of_app. by left.
    + intros x Hx Hnx Ht. rewrite target_at_resolved, Ht.
      * by rewrite decide_False, decide_True.
      * apply Vx. unfold descriptors. rewrite app_assoc. apply elem_of_app. by right.
    + intros x t. apply target_at_resolved_set.
    + intros p o Hpo.
      destruct (resolved_heap_targets pf fields (heap s) V) as [_ S].
      apply pairs_agree_unfold in A. destruct A as (A1 & A2 & A3).
      unfold descriptors, input_descriptors, weight_descriptors,
        grad_output_descriptors in S. cbn [app] in S.
      rewrite !Forall_cons in S. destruct S as (S1 & S2 & S3 & S4 & S5 & S6 & _).
      rewrite !elem_of_cons, elem_of_nil in Hpo.
      destruct Hpo as [[= -> ->]|[[= -> ->]|[[= -> ->]|[]]]].
      * destruct S1 as [t Ht]. exists t. by rewrite <- A1.
      * destruct S3 as [t Ht]. exists t. by rewrite <- A2.
      * destruct S5 as [t Ht]. exists t. by rewrite <- A3.
  - intros p o a b Hpo Hp Ho Hab.
    destruct (Float8LinearConfig_post_init pf fields s) as [[c|e] s'] eqn:E;
      [exfalso | done].
    apply post_init_Ok_inv in E as (_ & _ & A & _).
    unfold pairs_agree in A. rewrite Forall_forall in A.
    specialize (A (p, o) Hpo). cbn [fst snd] in A.
    rewrite (target_at_resolved_set pf fields _ _ _ Hp) in A.
    rewrite (target_at_resolved_set pf fields _ _ _ Ho) in A.
    congruence.
Qed.

(** The amended C3 at two inputs: the all-defaults configuration, whose
    [grad_output] descriptor gets the e5m2 type, and a configuration whose
    [input] descriptors ask for e4m3 and e5m2. *)
Lemma dtype_resolution_witness :
  target_at
    (heap (Float8LinearConfig_new cuda_machine Float8LinearConfig_defaults
             state_after_import).2)
    default_cast_config_grad_output = Some torch.float8_e5m2 ∧
  is_Ok (Float8LinearConfig_new cuda_machine
           (with_descriptors 3 default_cast_config_weight
              default_cast_config_grad_output (Some 4) None None false)
           mismatch_state).1 = false.
Proof.
  split.
  - destruct (dtype_resolution cuda_machine Float8LinearConfig_defaults
                state_after_import) as [H _].
    destruct (H _ _ eq_refl) as (_ & Hgo & _).
    apply (Hgo default_cast_config_grad_output).
    + vm_compute. by left.
    + apply (bool_decide_unpack _). vm_compute. exact I.
    + reflexivity.
  - destruct (dtype_resolution cuda_machine
                (with_descriptors 3 default_cast_config_weight
                   default_cast_config_grad_output (Some 4) None None false)
                mismatch_state) as [_ H].
    apply (H 3 4 torch.float8_e4m3fn torch.float8_e5m2).
    + vm_compute. by left.
    + reflexivity.
    + reflexivity.
    + discriminate.
Defined.

(** C6.  Constructing a configuration again from the field values of a
    configuration that passed validation, in the store that validation
    left, succeeds, yields the same field values and leaves the store as it
    is (the deprecation warning, if the flag is set, is logged again). *)
Theorem validation_idempotent (pf : Platform) (fields c : Float8LinearConfig)
    (s s' : PyState) :
  Float8LinearConfig_new pf fields s = (Ok c, s') →
  Float8LinearConfig_new pf c s'
  = (Ok c, mkPyState (heap s') (log s' ++ warnings_of c)).
Proof.
  unfold Float8LinearConfig_new. intros H.
  apply post_init_Ok_inv in H as (V & F & A & -> & ->). cbn [heap log].
  set (self := populate_cast_overrides fields).
  set (h' := resolved_heap pf fields (heap s)).
  assert (valid_descriptors h' self) as V'.
  { apply valid_descriptors_populate. unfold valid_descriptors in *.
    eapply Forall_impl; [exact V|]. intros x. by apply resolved_heap_is_Some. }
  assert (resolved_heap pf self h' = h') as Eh.
  { unfold self, h'. rewrite resolved_heap_populate. by apply resolved_heap_idem. }
  rewrite post_init_Ok; cbn [heap log].
  - unfold self at 1. by rewrite populate_cast_overrides_idem, Eh.
  - done.
  - intros w Hw Hg.
    destruct (populate_cast_overrides_flags fields) as (Ew & Ef & _).
    unfold self in *. rewrite Ew in Hw. rewrite Ef.
    apply resolved_heap_policy in Hw as (o & Ho & _ & Eg).
    apply (F o Ho). by rewrite <- Eg.
  - rewrite Eh. by apply pairs_agree_populate.
Qed.

(** C6 at the all-defaults configuration. *)
Lemma validation_idempotent_witness :
  let r := Float8LinearConfig_new cuda_machine Float8LinearConfig_defaults
             state_after_import in
  Float8LinearConfig_new cuda_machine (populate_cast_overrides Float8LinearConfig_defaults) r.2
  = (Ok (populate_cast_overrides Float8LinearConfig_defaults), r.2).
Proof.
  exact (validation_idempotent cuda_machine Float8LinearConfig_defaults _
           state_after_import _ eq_refl).
Defined.

(** C1: the code does not do what the claim says.  A caller builds
    [Float8LinearConfig(cast_config_input=CastConfig(scaling_type=ScalingType.DISABLED))]
    right after importing the module.  The [output] gemm then has [input]
    [DISABLED] and [weight] [DYNAMIC], and construction returns all the
    same: both flags of the check are read from the first operand. *)
Theorem mixed_precision_output_gemm_is_accepted (pf : Platform) :
  ∃ c s',
    (x ← CastConfig_new ScalingType.DISABLED ScalingGranularity.TENSORWISE None;
     Float8LinearConfig_new pf
       (with_descriptors x default_cast_config_weight
          default_cast_config_grad_output None None None false))
      state_after_import = (Ok c, s') ∧
    scaling_type <$> heap s' !! cast_config_input c = Some ScalingType.DISABLED ∧
    scaling_type <$> heap s' !! cast_config_weight c = Some ScalingType.DYNAMIC.
Proof. destruct pf as [[] [] []]; vm_compute; eauto. Qed.

Lemma recipe_name_of_arg_value m s :
  recipe_name_of_arg (ByStr (Float8LinearRecipeName.value m)) s = (Ok m, s).
Proof. by destruct m. Qed.

(** One [CastConfig(...)] call of a recipe, in a store whose last objects
    are the ones the recipe has created so far. *)
Ltac new_cast_config :=
  erewrite bind_Ok;
    [| apply CastConfig_new_fresh;
       [done | first [reflexivity | apply float8_e4m3_dtype]]];
  cbn [app length].

(** C7.  [from_recipe_name("rowwise")] returns a configuration whose
    [input], [weight] and [grad_output] descriptors are all dynamic,
    axiswise and of the preferred e4m3 type, and whose
    [round_scales_to_power_of_2] is set. *)
Theorem from_recipe_name_rowwise (pf : Platform) (s : PyState) :
  ∃ c s',
    from_recipe_name pf (ByStr "rowwise") s = (Ok c, s') ∧
    heap s' !! cast_config_input c
      = Some (mkCastConfig ScalingType.DYNAMIC ScalingGranularity.AXISWISE
                (Some (e4m3_dtype pf))) ∧
    heap s' !! cast_config_weight c
      = Some (mkCastConfig ScalingType.DYNAMIC ScalingGranularity.AXISWISE
                (Some (e4m3_dtype pf))) ∧
    heap s' !! cast_config_grad_output c
      = Some (mkCastConfig ScalingType.DYNAMIC ScalingGranularity.AXISWISE
                (Some (e4m3_dtype pf))) ∧
    round_scales_to_power_of_2 c = true.
Proof.
  destruct s as [h lg]. unfold from_recipe_name.
  rewrite (bind_Ok _ _ _ _ _
             (recipe_name_of_arg_value Float8LinearRecipeName.ROWWISE _)).
  unfold recipe_config.
  replace (mkPyState h lg) with (mkPyState (h ++ []) lg) by (by rewrite app_nil_r).
  do 3 new_cast_config.
  unfold Float8LinearConfig_new.
  rewrite (post_init_fresh pf h _ lg rowwise_fields).
  - eexists _, _. split; [reflexivity|]. cbn [heap].
    change (cast_config_input _) with (length h + 0).
    change (cast_config_weight _) with (length h + 1).
    change (cast_config_grad_output _) with (length h + 2).
    rewrite !lookup_snoc_plus. by destruct pf as [[] [] []].
  - apply valid_descriptors_unfold. cbn. eauto 10.
  - by apply fsdp_compatible_off.
  - by apply pairs_agree_unfold.
Qed.

(** C8.  [from_recipe_name("rowwise_with_gw_hp")] returns a configuration
    whose [input_for_grad_weight] and [grad_output_for_grad_weight]
    descriptors are [DISABLED], whose [weight_for_grad_input] descriptor is
    tensorwise and whose [weight] descriptor is axiswise. *)
Theorem from_recipe_name_rowwise_with_gw_hp (pf : Platform) (s : PyState) :
  ∃ c s' i_gw w_gi go_gw,
    from_recipe_name pf (ByStr "rowwise_with_gw_hp") s = (Ok c, s') ∧
    cast_config_input_for_grad_weight c = Some i_gw ∧
    cast_config_weight_for_grad_input c = Some w_gi ∧
    cast_config_grad_output_for_grad_weight c = Some go_gw ∧
    heap s' !! i_gw
      = Some (mkCastConfig ScalingType.DISABLED ScalingGranularity.TENSORWISE
                (Some (e4m3_dtype pf))) ∧
    heap s' !! go_gw
      = Some (mkCastConfig ScalingType.DISABLED ScalingGranularity.TENSORWISE
                (Some (e4m3_dtype pf))) ∧
    heap s' !! w_gi
      = Some (mkCastConfig ScalingType.DYNAMIC ScalingGranularity.TENSORWISE
                (Some (e4m3_dtype pf))) ∧
    heap s' !! cast_config_weight c
      = Some (mkCastConfig ScalingType.DYNAMIC ScalingGranularity.AXISWISE
                (Some (e4m3_dtype pf))).
Proof.
  destruct s as [h lg]. unfold from_recipe_name.
  rewrite (bind_Ok _ _ _ _ _
             (recipe_name_of_arg_value Float8LinearRecipeName.ROWWISE_WITH_GW_HP _)).
  unfold recipe_config.
  replace (mkPyState h lg) with (mkPyState (h ++ []) lg) by (by rewrite app_nil_r).
  do 6 new_cast_config.
  unfold Float8LinearConfig_new.
  rewrite (post_init_fresh pf h _ lg rowwise_with_gw_hp_fields).
  - exists (shift (length h) rowwise_with_gw_hp_fields).
    eexists _, (length h + 4), (length h + 3), (length h + 5).
    split; [reflexivity|]. do 3 (split; [reflexivity|]). cbn [heap].
    change (cast_config_weight _) with (length h + 1).
    rewrite !lookup_snoc_plus. by destruct pf as [[] [] []].
  - apply valid_descriptors_unfold. cbn. eauto 10.
  - by apply fsdp_compatible_off.
  - apply pairs_agree_unfold. by destruct pf as [[] [] []].
Qed.



Lemma CastConfig_short_str_e4m3 pf s r st g :
  heap s !! r = Some (mkCastConfig st g (Some (e4m3_dtype pf))) →
  CastConfig_short_str pf r s
  = (Ok (ScalingType.short_str st +:+ "_" +:+
         ScalingGranularity.short_str g +:+ "_e4m3"), s).
Proof.
  intros Hr. unfold CastConfig_short_str.
  rewrite (bind_Ok _ _ _ _ _ (deref_Some _ _ _ Hr)).
  by destruct pf as [[] [] []], st, g.
Qed.

Lemma CastConfig_short_str_e5m2 pf s r st g :
  heap s !! r = Some (mkCastConfig st g (Some (e5m2_dtype pf))) →
  CastConfig_short_str pf r s
  = (Ok (ScalingType.short_str st +:+ "_" +:+
         ScalingGranularity.short_str g +:+ "_e5m2"), s).
Proof.
  intros Hr. unfold CastConfig_short_str.
  rewrite (bind_Ok _ _ _ _ _ (deref_Some _ _ _ Hr)).
  by destruct pf as [[] [] []], st, g.
Qed.

(** C10.  [short_str] of a descriptor whose target dtype is unset raises
    [KeyError]: the dictionary has the two preferred types as its keys.
    So it does for a descriptor fresh from [CastConfig()], until a
    [Float8LinearConfig] has been constructed over it. *)
Theorem short_str_needs_target_dtype (pf : Platform) :
  (∀ s r o, heap s !! r = Some o → target_dtype o = None →
     CastConfig_short_str pf r s = (Raise (KeyError None), s)) ∧
  (∀ s, (x ← CastConfig_default; CastConfig_short_str pf x) s
        = (Raise (KeyError None), (CastConfig_default s).2)) ∧
  (∀ s, ∃ s',
     (x ← CastConfig_default; y ← CastConfig_default; z ← CastConfig_default;
      Float8LinearConfig_new pf (with_descriptors x y z None None None false);;
      a ← CastConfig_short_str pf x;
      b ← CastConfig_short_str pf z;
      mret (a, b)) s
     = (Ok ("dyn_ten_e4m3", "dyn_ten_e5m2"), s')).
Proof.
  assert (∀ s r o, heap s !! r = Some o → target_dtype o = None →
            CastConfig_short_str pf r s = (Raise (KeyError None), s)) as H1.
  { intros s r o Hr Ht. unfold CastConfig_short_str.
    rewrite (bind_Ok _ _ _ _ _ (deref_Some _ _ _ Hr)), Ht.
    by destruct pf as [[] [] []]. }
  split; [done|]. split.
  - intros s. unfold CastConfig_default.
    rewrite (bind_Ok _ _ _ _ _
               (CastConfig_new_Ok ScalingType.DYNAMIC ScalingGranularity.TENSORWISE
                  None s (λ _, eq_refl) eq_refl)).
    rewrite CastConfig_new_Ok by done. cbn [snd].
    eapply H1.
    + cbn [heap]. by apply list_lookup_middle.
    + reflexivity.
  - intros [h lg]. unfold CastConfig_default.
    replace (mkPyState h lg) with (mkPyState (h ++ []) lg) by (by rewrite app_nil_r).
    do 3 new_cast_config.
    unfold Float8LinearConfig_new.
    rewrite bind_run.
    rewrite (post_init_fresh pf h _ lg (with_descriptors 0 1 2 None None None false)).
    + erewrite bind_Ok;
        [| apply CastConfig_short_str_e4m3; cbn [heap];
           by rewrite lookup_snoc_plus].
      erewrite bind_Ok;
        [| apply CastConfig_short_str_e5m2; cbn [heap];
           by rewrite lookup_snoc_plus].
      eauto.
    + apply valid_descriptors_unfold. cbn. eauto 10.
    + by apply fsdp_compatible_off.
    + apply pairs_agree_unfold. by destruct pf as [[] [] []].
Qed.

(** C10 at the default [input] descriptor of
    the class, before any configuration has been constructed. *)
Lemma short_str_needs_target_dtype_witness :
  CastConfig_short_str cuda_machine default_cast_config_input state_after_import
  = (Raise (KeyError None), state_after_import).
Proof.
  apply (proj1 (short_str_needs_target_dtype cuda_machine) state_after_import
           default_cast_config_input
           (mkCastConfig ScalingType.DYNAMIC ScalingGranularity.TENSORWISE None));
    reflexivity.
Defined.

(** C4.  [CastConfig(...)] raises an assertion error when the granularity
    is axiswise and the scaling type is not dynamic, and when a target
    dtype is given that is not an 8-bit floating-point dtype.  With
    tensorwise granularity every scaling type is accepted, and so is an
    unset target dtype: the call then returns a new object with the three
    values and touches nothing else. *)
Theorem CastConfig_new_validation (st : ScalingType.t)
    (g : ScalingGranularity.t) (d : option torch.dtype) (s : PyState) :
  (g = ScalingGranularity.AXISWISE → st ≠ ScalingType.DYNAMIC →
     CastConfig_new st g d s
     = (Raise (AssertionError
                 "only dynamic scaling type is supported for axiswise scaling granularity"),
        s)) ∧
  (∀ t, d = Some t → is_float8 t = false →
     ∃ msg, CastConfig_new st g d s = (Raise (AssertionError msg), s)) ∧
  (∀ t, d = Some t → is_float8 t = false →
     (g = ScalingGranularity.AXISWISE → st = ScalingType.DYNAMIC) →
     CastConfig_new st g d s
     = (Raise (AssertionError "must specify a 8-bit floating-point dtype"), s)) ∧
  (g = ScalingGranularity.TENSORWISE →
     from_option is_float8 true d = true →
     CastConfig_new st g d s
     = (Ok (length (heap s)),
        mkPyState (heap s ++ [mkCastConfig st g d]) (log s))) ∧
  (d = None → (g = ScalingGranularity.AXISWISE → st = ScalingType.DYNAMIC) →
     CastConfig_new st g d s
     = (Ok (length (heap s)),
        mkPyState (heap s ++ [mkCastConfig st g d]) (log s))).
Proof.
  assert (∀ t, d = Some t → is_float8 t = false →
            (g = ScalingGranularity.AXISWISE → st = ScalingType.DYNAMIC) →
            CastConfig_new st g d s
            = (Raise (AssertionError "must specify a 8-bit floating-point dtype"), s))
    as Hfloat.
  { intros t -> Ht Hg. unfold CastConfig_new, CastConfig_post_init.
    unfold is_float8 in Ht. cbn [target_dtype scaling_granularity scaling_type].
    destruct g, st; try (by specialize (Hg eq_refl));
      rewrite !bind_run; cbn; by rewrite Ht. }
  repeat split.
  - intros -> Hst. by destruct st.
  - intros t Hd Ht.
    destruct (decide (g = ScalingGranularity.AXISWISE → st = ScalingType.DYNAMIC))
      as [Hg|Hg].
    + eexists. by eapply Hfloat.
    + destruct g, st; try (by exfalso; apply Hg); eauto.
  - exact Hfloat.
  - intros -> Hd. by apply CastConfig_new_Ok.
  - intros -> Hg. by apply CastConfig_new_Ok.
Qed.

(** C4 at
    [CastConfig(scaling_type=DISABLED, scaling_granularity=AXISWISE)], at
    [CastConfig(target_dtype=torch.float16)] and at
    [CastConfig(scaling_type=DISABLED)]. *)
Lemma CastConfig_new_validation_witness :
  CastConfig_new ScalingType.DISABLED ScalingGranularity.AXISWISE None
    state_after_import
  = (Raise (AssertionError
              "only dynamic scaling type is supported for axiswise scaling granularity"),
     state_after_import) ∧
  CastConfig_new ScalingType.DYNAMIC ScalingGranularity.TENSORWISE
    (Some torch.float16) state_after_import
  = (Raise (AssertionError "must specify a 8-bit floating-point dtype"),
     state_after_import) ∧
  (CastConfig_new ScalingType.DISABLED ScalingGranularity.TENSORWISE None
     state_after_import).1 = Ok 3.
Proof.
  split; [|split].
  - apply (CastConfig_new_validation ScalingType.DISABLED
             ScalingGranularity.AXISWISE None state_after_import);
      [reflexivity | discriminate].
  - apply (proj1 (proj2 (proj2
             (CastConfig_new_validation ScalingType.DYNAMIC
                ScalingGranularity.TENSORWISE (Some torch.float16)
                state_after_import))) torch.float16);
      [reflexivity | reflexivity | discriminate].
  - rewrite (proj1 (proj2 (proj2 (proj2
               (CastConfig_new_validation ScalingType.DISABLED
                  ScalingGranularity.TENSORWISE None state_after_import)))));
      reflexivity.
Defined.

(** C5.  When the [weight] descriptor is not tensorwise and
    [enable_fsdp_float8_all_gather] is set, construction raises the
    assertion error of step 2 and has written nothing.  The check reads the
    [weight] descriptor only: with a tensorwise [weight], construction
    returns whenever the descriptors exist and their target dtypes agree,
    whatever the flag and the granularity of the other five. *)
Theorem fsdp_all_gather_needs_tensorwise_weight (pf : Platform)
    (fields : Float8LinearConfig) (s : PyState) (w : CastConfig) :
  heap s !! cast_config_weight fields = Some w →
  (scaling_granularity w ≠ ScalingGranularity.TENSORWISE →
   enable_fsdp_float8_all_gather fields = true →
   Float8LinearConfig_new pf fields s
   = (Raise (AssertionError
               ("enable_fsdp_float8_all_gather only supports tensorwise scaling granularity, got "
                +:+ ScalingGranularity.str (scaling_granularity w))), s)) ∧
  (scaling_granularity w = ScalingGranularity.TENSORWISE →
   valid_descriptors (heap s) fields →
   pairs_agree (resolved_heap pf fields (heap s)) fields →
   is_Ok (Float8LinearConfig_new pf fields s).1 = true).
Proof.
  intros Hw. unfold Float8LinearConfig_new. split.
  - intros Hg Hf. unfold Float8LinearConfig_post_init.
    destruct (populate_cast_overrides_flags fields) as (Ew & Ef & _).
    rewrite bind_run, check_fsdp_all_gather_run, Ew, Ef, Hw, Hf.
    by rewrite bool_decide_eq_false_2.
  - intros Hg V A. rewrite post_init_Ok; [done | done | | done].
    by eapply fsdp_compatible_tensorwise.
Qed.

(** C5 at two configurations with
    the flag set, over a store with one axiswise descriptor (object 3): one
    where it is the [weight], and one where [weight] is the tensorwise
    default and the axiswise descriptor is each of the other five. *)
Lemma fsdp_all_gather_needs_tensorwise_weight_witness :
  Float8LinearConfig_new cuda_machine
    (with_descriptors default_cast_config_input 3
       default_cast_config_grad_output None None None true)
    axiswise_state
  = (Raise (AssertionError
              "enable_fsdp_float8_all_gather only supports tensorwise scaling granularity, got ScalingGranularity.AXISWISE"),
     axiswise_state) ∧
  is_Ok (Float8LinearConfig_new cuda_machine
           (with_descriptors 3 default_cast_config_weight 3
              (Some 3) (Some 3) (Some 3) true)
           axiswise_state).1 = true.
Proof.
  split.
  - apply (proj1 (fsdp_all_gather_needs_tensorwise_weight cuda_machine
                    (with_descriptors default_cast_config_input 3
                       default_cast_config_grad_output None None None true)
                    axiswise_state
                    (mkCastConfig ScalingType.DYNAMIC ScalingGranularity.AXISWISE None)
                    eq_refl));
      [discriminate | reflexivity].
  - apply (proj2 (fsdp_all_gather_needs_tensorwise_weight cuda_machine
                    (with_descriptors 3 default_cast_config_weight 3
                       (Some 3) (Some 3) (Some 3) true)
                    axiswise_state
                    (mkCastConfig ScalingType.DYNAMIC ScalingGranularity.TENSORWISE None)
                    eq_refl)).
    + reflexivity.
    + apply (bool_decide_unpack _). vm_compute. exact I.
    + apply (bool_decide_unpack _). vm_compute. exact I.
Defined.


(** ** Further properties *)

(** *** The preferred dtypes *)

(** X1.  On every machine the preferred pair is the OCP pair or the fnuz
    pair, never a mix; it is the fnuz pair exactly when the three probes
    of [Float8TypeConfig.__post_init__] all answer yes; the two types
    differ, and each is accepted as a target dtype by [CastConfig]. *)
Theorem preferred_dtype_pair (pf : Platform) :
  ((e4m3_dtype pf, e5m2_dtype pf) = (torch.float8_e4m3fnuz, torch.float8_e5m2fnuz)
   ↔ version_hip pf = true ∧ cuda_is_available pf = true ∧ is_MI300 pf = true) ∧
  ((e4m3_dtype pf, e5m2_dtype pf) = (torch.float8_e4m3fn, torch.float8_e5m2)
   ↔ ¬ (version_hip pf = true ∧ cuda_is_available pf = true ∧ is_MI300 pf = true)) ∧
  e4m3_dtype pf ≠ e5m2_dtype pf ∧
  (∀ st g s, (g = ScalingGranularity.AXISWISE → st = ScalingType.DYNAMIC) →
     is_Ok (CastConfig_new st g (Some (e4m3_dtype pf)) s).1 = true ∧
     is_Ok (CastConfig_new st g (Some (e5m2_dtype pf)) s).1 = true).
Proof.
  split; [|split; [|split]].
  - destruct pf as [[] [] []]; cbn; split; try done;
      intros (? & ? & ?); done.
  - destruct pf as [[] [] []]; cbn; split; try done;
      first [ by intros H; destruct H | by intros H (? & ? & ?) ].
  - apply e4m3_ne_e5m2.
  - intros st g s Hg. split.
    + rewrite CastConfig_new_Ok; [done | done | apply float8_e4m3_dtype].
    + rewrite CastConfig_new_Ok; [done | done | apply float8_e5m2_dtype].
Qed.

(** X1 on an MI300 and on a machine without ROCm. *)
Lemma preferred_dtype_pair_witness :
  (e4m3_dtype mi300_machine, e5m2_dtype mi300_machine)
    = (torch.float8_e4m3fnuz, torch.float8_e5m2fnuz) ∧
  (e4m3_dtype cuda_machine, e5m2_dtype cuda_machine)
    = (torch.float8_e4m3fn, torch.float8_e5m2).
Proof.
  split.
  - apply (proj1 (preferred_dtype_pair mi300_machine)). by repeat split.
  - apply (proj1 (proj2 (preferred_dtype_pair cuda_machine))).
    intros (H & _). discriminate H.
Defined.

(** *** Helper facts *)

(** The store after [__post_init__], whatever the outcome. *)
Lemma post_init_frames pf self s :
  heap_frame (descriptors self) [e4m3_dtype pf; e5m2_dtype pf]
    (heap s) (heap (Float8LinearConfig_post_init pf self s).2).
Proof.
  unfold Float8LinearConfig_post_init.
  set (self' := populate_cast_overrides self).
  set (F := descriptors self). set (ds := [e4m3_dtype pf; e5m2_dtype pf]).
  assert (frames F ds
            (check_fsdp_all_gather self';;
             for_each (gemm_operands self') check_gemm_operands;;
             for_each (operand_dtypes pf self') resolve_operand_dtype)) as Hfr.
  { apply frames_bind; [apply frames_check_fsdp_all_gather | intros _].
    apply frames_bind; [| intros _].
    - apply frames_for_each. intros it _. apply frames_check_gemm_operands.
    - apply frames_for_each. intros [[[cc1 cc2] name] d] Hit.
      apply operand_dtypes_elem in Hit as (H1 & H2 & Hd).
      apply frames_resolve_operand_dtype;
        [by apply elem_of_descriptors_populate
        | by apply elem_of_descriptors_populate | done]. }
  specialize (Hfr s). destruct Hfr as [_ Hfr]. revert Hfr. rewrite !bind_run.
  destruct (check_fsdp_all_gather self' s) as [[u1|e1] s1]; [|done].
  rewrite !bind_run.
  destruct (for_each (gemm_operands self') check_gemm_operands s1)
    as [[u2|e2] s2]; [|done].
  rewrite !bind_run.
  destruct (for_each (operand_dtypes pf self') resolve_operand_dtype s2)
    as [[u3|e3] s3]; [|done].
  by rewrite bind_run, (proj2 (frames_warn_if_deprecated_heap self' s3)).
Qed.

Lemma heap_frame_store_ok F ds h h' :
  Forall (λ d, is_float8 d = true) ds →
  heap_frame F ds h h' → store_ok h → store_ok h'.
Proof.
  intros Hds [Hlen Hfr]. unfold store_ok. rewrite !Forall_lookup.
  intros Hok l o' Hl'.
  destruct (h !! l) as [o|] eqn:Hl.
  - destruct (Hfr l o Hl) as [E|(_ & _ & d & Hd & E)]; rewrite Hl' in E;
      injection E as ->; [by eapply Hok|].
    destruct (Hok l o Hl) as [Hg _]. split; [done|]. cbn.
    rewrite Forall_forall in Hds. by apply Hds.
  - apply lookup_ge_None in Hl. apply lookup_lt_Some in Hl'. lia.
Qed.

Lemma heap_frame_class_defaults F ds h h' :
  heap_frame F ds h h' → has_class_defaults h → has_class_defaults h'.
Proof.
  intros [_ Hfr] H. unfold has_class_defaults in *.
  eapply Forall_impl; [exact H|]. cbv beta.
  intros r (o & Hr & Hst & Hg).
  destruct (Hfr r o Hr) as [E|(_ & _ & d & _ & E)]; eauto.
Qed.

Lemma store_ok_snoc h o : store_ok h → cast_config_ok o → store_ok (h ++ [o]).
Proof. intros Hh Ho. apply Forall_app. split; [done|]. by apply Forall_singleton. Qed.

Lemma has_class_defaults_app h suf :
  has_class_defaults h → has_class_defaults (h ++ suf).
Proof.
  intros H. unfold has_class_defaults in *.
  eapply Forall_impl; [exact H|]. cbv beta. intros r (o & Hr & Hst & Hg).
  exists o. split; [|done]. rewrite lookup_app_l; [done|].
  by eapply lookup_lt_Some.
Qed.

Lemma preferred_dtypes_float8 pf :
  Forall (λ d, is_float8 d = true) [e4m3_dtype pf; e5m2_dtype pf].
Proof.
  repeat constructor; [apply float8_e4m3_dtype | apply float8_e5m2_dtype].
Qed.

(** [CastConfig(...)] when the assertions do not hold. *)
Lemma CastConfig_new_Raise st g d s :
  ¬ cast_config_ok (mkCastConfig st g d) →
  ∃ msg, CastConfig_new st g d s = (Raise (AssertionError msg), s).
Proof.
  unfold cast_config_ok, CastConfig_new, CastConfig_post_init, is_float8. cbn.
  intros Hn. destruct g, st, d as [t|]; cbn;
    try (by eexists);
    try (exfalso; apply Hn; split; [done | reflexivity]);
    rewrite !bind_run; cbn;
    (destruct (torch.is_floating_point t && bool_decide (torch.itemsize t = 1))
       eqn:E; cbn; [exfalso; apply Hn; by split | by eexists]).
Qed.

(** Lookup of a member by value. *)
Lemma of_value_Some name m :
  Float8LinearRecipeName.of_value name = Some m
  ↔ Float8LinearRecipeName.value m = name.
Proof.
  unfold Float8LinearRecipeName.of_value, Float8LinearRecipeName.members.
  cbn. split.
  - repeat case_bool_decide; intros [= <-]; done.
  - intros <-. by destruct m.
Qed.

Lemma of_value_None name :
  Float8LinearRecipeName.of_value name = None ↔ name ∉ valid_names.
Proof.
  unfold valid_names. rewrite list_elem_of_fmap. split.
  - intros Hn (m & -> & _).
    by rewrite (proj2 (of_value_Some _ m) eq_refl) in Hn.
  - intros Hn. destruct (Float8LinearRecipeName.of_value name) as [m|] eqn:E;
      [|done].
    exfalso. apply Hn. exists m. apply of_value_Some in E. split; [done|].
    destruct m; repeat constructor.
Qed.

Lemma recipe_name_of_arg_run arg s :
  recipe_name_of_arg arg s =
    match arg with
    | ByMember m => (Ok m, s)
    | ByStr name =>
        match Float8LinearRecipeName.of_value name with
        | Some m => (Ok m, s)
        | None =>
            (Raise (AssertionError
                      ("recipe_name " +:+ name +:+ " not in valid names "
                       +:+ repr_list valid_names)), s)
        end
    end.
Proof.
  destruct arg as [m|name]; [done|]. unfold recipe_name_of_arg.
  rewrite bind_run.
  destruct (Float8LinearRecipeName.of_value name) as [m|] eqn:E.
  - rewrite bool_decide_eq_true_2; [done|].
    apply of_value_Some in E as <-. unfold valid_names.
    apply list_elem_of_fmap. exists m. split; [done|].
    destruct m; repeat constructor.
  - apply of_value_None in E. by rewrite bool_decide_eq_false_2.
Qed.

(** The two rowwise recipes, run in any store. *)
Lemma recipe_config_rowwise_run pf h lg :
  recipe_config pf Float8LinearRecipeName.ROWWISE (mkPyState h lg)
  = (Ok (shift (length h) (populate_cast_overrides rowwise_fields)),
     mkPyState
       (h ++ replicate 3
               (mkCastConfig ScalingType.DYNAMIC ScalingGranularity.AXISWISE
                  (Some (e4m3_dtype pf))))
       lg).
Proof.
  unfold recipe_config.
  replace (mkPyState h lg) with (mkPyState (h ++ []) lg) by (by rewrite app_nil_r).
  do 3 new_cast_config.
  unfold Float8LinearConfig_new.
  rewrite (post_init_fresh pf h _ lg rowwise_fields).
  - cbn [warnings_of rowwise_fields force_recompute_fp8_weight_in_bwd].
    by rewrite app_nil_r.
  - apply valid_descriptors_unfold. cbn. eauto 10.
  - by apply fsdp_compatible_off.
  - by apply pairs_agree_unfold.
Qed.

Lemma recipe_config_rowwise_with_gw_hp_run pf h lg :
  recipe_config pf Float8LinearRecipeName.ROWWISE_WITH_GW_HP (mkPyState h lg)
  = (Ok (shift (length h) rowwise_with_gw_hp_fields),
     mkPyState
       (h ++ [mkCastConfig ScalingType.DYNAMIC ScalingGranularity.AXISWISE
                (Some (e4m3_dtype pf));
              mkCastConfig ScalingType.DYNAMIC ScalingGranularity.AXISWISE
                (Some (e4m3_dtype pf));
              mkCastConfig ScalingType.DYNAMIC ScalingGranularity.AXISWISE
                (Some (e4m3_dtype pf));
              mkCastConfig ScalingType.DYNAMIC ScalingGranularity.TENSORWISE
                (Some (e4m3_dtype pf));
              mkCastConfig ScalingType.DISABLED ScalingGranularity.TENSORWISE
                (Some (e4m3_dtype pf));
              mkCastConfig ScalingType.DISABLED ScalingGranularity.TENSORWISE
                (Some (e4m3_dtype pf))])
       lg).
Proof.
  unfold recipe_config.
  replace (mkPyState h lg) with (mkPyState (h ++ []) lg) by (by rewrite app_nil_r).
  do 6 new_cast_config.
  unfold Float8LinearConfig_new.
  rewrite (post_init_fresh pf h _ lg rowwise_with_gw_hp_fields).
  - cbn [warnings_of rowwise_with_gw_hp_fields with_descriptors
           force_recompute_fp8_weight_in_bwd].
    by rewrite app_nil_r.
  - apply valid_descriptors_unfold. cbn. eauto 10.
  - by apply fsdp_compatible_off.
  - apply pairs_agree_unfold. by destruct pf as [[] [] []].
Qed.

Lemma CastConfig_short_str_run pf r s o :
  heap s !! r = Some o →
  CastConfig_short_str pf r s
  = (if decide (target_dtype o = Some (e4m3_dtype pf))
     then Ok (short_label o "e4m3")
     else if decide (target_dtype o = Some (e5m2_dtype pf))
          then Ok (short_label o "e5m2")
          else Raise (KeyError (target_dtype o)),
     s).
Proof.
  intros Hr. unfold CastConfig_short_str.
  rewrite (bind_Ok _ _ _ _ _ (deref_Some _ _ _ Hr)).
  destruct o as [st g [d|]]; cbn [target_dtype];
    [|by destruct pf as [[] [] []]].
  destruct pf as [[] [] []], d; reflexivity.
Qed.

Lemma short_label_inj o1 o2 n1 n2 :
  n1 ∈ ["e4m3"; "e5m2"] → n2 ∈ ["e4m3"; "e5m2"] →
  short_label o1 n1 = short_label o2 n2 →
  scaling_type o1 = scaling_type o2 ∧
  scaling_granularity o1 = scaling_granularity o2 ∧ n1 = n2.
Proof.
  rewrite !elem_of_cons, !elem_of_nil.
  destruct o1 as [[] [] ?], o2 as [[] [] ?];
    intros [->|[->|[]]] [->|[->|[]]]; cbn; intros [=]; done.
Qed.

(** *** [CastConfig] *)

(** X2.  [CastConfig(...)] returns exactly when the two assertions of
    [__post_init__] hold of the three values.  It then yields a reference
    that was not in the store, behind which the three values are read back,
    and keeps every older object and the log; otherwise it raises an
    assertion error and leaves the state as it was. *)
Theorem CastConfig_new_allocates (st : ScalingType.t)
    (g : ScalingGranularity.t) (d : option torch.dtype) (s : PyState) :
  (cast_config_ok (mkCastConfig st g d) →
   ∃ x s', CastConfig_new st g d s = (Ok x, s') ∧
           heap s !! x = None ∧
           heap s' !! x = Some (mkCastConfig st g d) ∧
           (∀ l o, heap s !! l = Some o → heap s' !! l = Some o) ∧
           length (heap s') = S (length (heap s)) ∧
           log s' = log s) ∧
  (¬ cast_config_ok (mkCastConfig st g d) →
   ∃ msg, CastConfig_new st g d s = (Raise (AssertionError msg), s)).
Proof.
  split; [|apply CastConfig_new_Raise].
  intros [Hg Hd]. cbn in Hg, Hd.
  eexists _, _. split; [by apply CastConfig_new_Ok|]. cbn [heap log].
  repeat split.
  - by apply lookup_ge_None.
  - by apply list_lookup_middle.
  - intros l o Hl. rewrite lookup_app_l; [done|]. by eapply lookup_lt_Some.
  - rewrite length_app. cbn. lia.
Qed.

(** X2 at [CastConfig(scaling_granularity=AXISWISE)] and at
    [CastConfig(scaling_type=DISABLED, scaling_granularity=AXISWISE)]. *)
Lemma CastConfig_new_allocates_witness :
  (∃ x s', CastConfig_new ScalingType.DYNAMIC ScalingGranularity.AXISWISE None
             state_after_import = (Ok x, s') ∧
           heap s' !! x
           = Some (mkCastConfig ScalingType.DYNAMIC ScalingGranularity.AXISWISE None)) ∧
  (∃ msg, CastConfig_new ScalingType.DISABLED ScalingGranularity.AXISWISE None
            state_after_import
          = (Raise (AssertionError msg), state_after_import)).
Proof.
  split.
  - destruct (proj1 (CastConfig_new_allocates ScalingType.DYNAMIC
                       ScalingGranularity.AXISWISE None state_after_import))
      as (x & s' & H & _ & Hx & _).
    + split; reflexivity.
    + by exists x, s'.
  - apply (proj2 (CastConfig_new_allocates ScalingType.DISABLED
                    ScalingGranularity.AXISWISE None state_after_import)).
    intros [H _]. discriminate (H eq_refl).
Defined.

(** X3.  The assertions of [CastConfig.__post_init__] stay true of every
    object of the store, whatever is run and whether it returns or raises:
    [CastConfig(...)], [Float8LinearConfig(...)] and [from_recipe_name].
    So, when a construction returns, each of its six descriptors has an
    8-bit floating-point target dtype. *)
Theorem store_ok_preserved (pf : Platform) (s : PyState) :
  store_ok (heap s) →
  (∀ st g d, store_ok (heap (CastConfig_new st g d s).2)) ∧
  (∀ fields, store_ok (heap (Float8LinearConfig_new pf fields s).2)) ∧
  (∀ arg, store_ok (heap (from_recipe_name pf arg s).2)) ∧
  (∀ fields c s', Float8LinearConfig_new pf fields s = (Ok c, s') →
     ∀ x, x ∈ descriptors c →
       ∃ t, target_at (heap s') x = Some t ∧ is_float8 t = true).
Proof.
  intros Hs.
  assert (∀ fields s0, store_ok (heap s0) →
            store_ok (heap (Float8LinearConfig_post_init pf fields s0).2)) as Hpost.
  { intros fields s0 H0. eapply heap_frame_store_ok;
      [apply preferred_dtypes_float8 | apply post_init_frames | done]. }
  split; [|split; [|split]].
  - intros st g d. destruct (decide (cast_config_ok (mkCastConfig st g d))) as [Hok|Hn].
    + destruct Hok as [Hg Hd]. rewrite CastConfig_new_Ok by done. cbn [snd heap].
      apply store_ok_snoc; [done | by split].
    + by destruct (CastConfig_new_Raise st g d s Hn) as [msg ->].
  - intros fields. by apply Hpost.
  - intros arg. unfold from_recipe_name.
    rewrite bind_run, recipe_name_of_arg_run.
    assert (∀ m, store_ok (heap (recipe_config pf m s).2)) as Hm.
    { intros [| |].
      - by apply Hpost.
      - destruct s as [h lg]. rewrite recipe_config_rowwise_run. cbn [snd heap].
        apply Forall_app. split; [done|].
        repeat constructor; cbn; apply float8_e4m3_dtype.
      - destruct s as [h lg]. rewrite recipe_config_rowwise_with_gw_hp_run.
        cbn [snd heap]. apply Forall_app. split; [done|].
        repeat constructor; cbn; try done; apply float8_e4m3_dtype. }
    destruct arg as [m|name]; [apply Hm|].
    destruct (Float8LinearRecipeName.of_value name); [apply Hm | done].
  - intros fields c s' H x Hx.
    pose proof (Hpost fields s Hs) as Hs'.
    unfold Float8LinearConfig_new in H. rewrite H in Hs'. cbn [snd] in Hs'.
    apply post_init_Ok_inv in H as (V & _ & _ & -> & ->). cbn [heap] in *.
    apply (proj1 (elem_of_descriptors_populate _ _)) in Hx.
    destruct (resolved_heap_targets pf fields (heap s) V) as [_ S].
    rewrite Forall_forall in S. destruct (S x Hx) as [t Ht].
    exists t. split; [done|].
    unfold target_at in Ht.
    destruct (resolved_heap pf fields (heap s) !! x) as [o|] eqn:Ho; [|done].
    cbn in Ht. unfold store_ok in Hs'. rewrite Forall_lookup in Hs'.
    destruct (Hs' x o Ho) as [_ Hd]. by rewrite Ht in Hd.
Qed.

(** X3 at the all-defaults construction right after import. *)
Lemma store_ok_preserved_witness :
  ∃ t, target_at
         (heap (Float8LinearConfig_new cuda_machine Float8LinearConfig_defaults
                  state_after_import).2)
         default_cast_config_grad_output = Some t ∧
       is_float8 t = true.
Proof.
  refine (proj2 (proj2 (proj2
            (store_ok_preserved cuda_machine state_after_import _)))
            Float8LinearConfig_defaults _ _ eq_refl
            default_cast_config_grad_output _).
  - repeat constructor.
  - vm_compute. do 4 right. left.
Defined.

(** X4.  [short_str] never changes the state.  It returns the label made of
    the two short codes and [e4m3] or [e5m2] when the target dtype is the
    preferred e4m3 or the preferred e5m2 type of the machine, and raises
    [KeyError], with the target dtype as the key, in every other case. *)
Theorem short_str_outcome (pf : Platform) (r : ref) (s : PyState)
    (o : CastConfig) :
  heap s !! r = Some o →
  CastConfig_short_str pf r s
  = (if decide (target_dtype o = Some (e4m3_dtype pf))
     then Ok (short_label o "e4m3")
     else if decide (target_dtype o = Some (e5m2_dtype pf))
          then Ok (short_label o "e5m2")
          else Raise (KeyError (target_dtype o)),
     s).
Proof. apply CastConfig_short_str_run. Qed.

(** X4 at the default [weight] descriptor after the first construction. *)
Lemma short_str_outcome_witness :
  CastConfig_short_str cuda_machine default_cast_config_weight
    (Float8LinearConfig_new cuda_machine Float8LinearConfig_defaults
       state_after_import).2
  = (Ok "dyn_ten_e4m3",
     (Float8LinearConfig_new cuda_machine Float8LinearConfig_defaults
        state_after_import).2).
Proof.
  exact (short_str_outcome cuda_machine default_cast_config_weight
           (Float8LinearConfig_new cuda_machine Float8LinearConfig_defaults
              state_after_import).2
           (mkCastConfig ScalingType.DYNAMIC ScalingGranularity.TENSORWISE
              (Some torch.float8_e4m3fn)) eq_refl).
Defined.

(** X5.  Passing validation does not make a descriptor labelable.  For
    every 8-bit floating-point dtype that is not one of the two preferred
    types of the machine, [CastConfig(target_dtype=d)] is accepted, a
    [Float8LinearConfig] over it is accepted, and [short_str] of the
    descriptor then raises [KeyError]. *)
Theorem validated_descriptor_without_label (pf : Platform) (d : torch.dtype)
    (s : PyState) :
  is_float8 d = true → d ≠ e4m3_dtype pf → d ≠ e5m2_dtype pf →
  ∃ s',
    (x ← CastConfig_new ScalingType.DYNAMIC ScalingGranularity.TENSORWISE (Some d);
     y ← CastConfig_default;
     z ← CastConfig_default;
     Float8LinearConfig_new pf (with_descriptors x y z None None None false);;
     CastConfig_short_str pf x) s
    = (Raise (KeyError (Some d)), s').
Proof.
  intros Hd H4 H5. destruct s as [h lg]. unfold CastConfig_default.
  replace (mkPyState h lg) with (mkPyState (h ++ []) lg) by (by rewrite app_nil_r).
  erewrite bind_Ok; [| by apply CastConfig_new_fresh]. cbn [app length].
  do 2 new_cast_config.
  unfold Float8LinearConfig_new. rewrite bind_run.
  rewrite (post_init_fresh pf h _ lg (with_descriptors 0 1 2 None None None false)).
  - erewrite CastConfig_short_str_run;
      [| cbn [heap]; by rewrite lookup_snoc_plus].
    cbn [target_dtype]. rewrite !decide_False by (by intros [= ?]). eauto.
  - apply valid_descriptors_unfold. cbn. eauto 10.
  - by apply fsdp_compatible_off.
  - by apply pairs_agree_unfold.
Qed.

(** X5 for [torch.float8_e5m2fnuz] on a machine that prefers the OCP types. *)
Lemma validated_descriptor_without_label_witness :
  ∃ s',
    (x ← CastConfig_new ScalingType.DYNAMIC ScalingGranularity.TENSORWISE
           (Some torch.float8_e5m2fnuz);
     y ← CastConfig_default;
     z ← CastConfig_default;
     Float8LinearConfig_new cuda_machine
       (with_descriptors x y z None None None false);;
     CastConfig_short_str cuda_machine x) state_after_import
    = (Raise (KeyError (Some torch.float8_e5m2fnuz)), s').
Proof.
  apply (validated_descriptor_without_label cuda_machine torch.float8_e5m2fnuz
           state_after_import); [reflexivity | discriminate | discriminate].
Defined.

(** X6.  Labels are unambiguous: two descriptors for which [short_str]
    returns the same label have the same scaling type, the same granularity
    and the same target dtype. *)
Theorem short_str_injective (pf : Platform) (s1 s2 s1' s2' : PyState)
    (r1 r2 : ref) (o1 o2 : CastConfig) (label : string) :
  heap s1 !! r1 = Some o1 → heap s2 !! r2 = Some o2 →
  CastConfig_short_str pf r1 s1 = (Ok label, s1') →
  CastConfig_short_str pf r2 s2 = (Ok label, s2') →
  o1 = o2.
Proof.
  intros H1 H2. rewrite (CastConfig_short_str_run pf _ _ _ H1).
  rewrite (CastConfig_short_str_run pf _ _ _ H2).
  assert (∀ n1 n2, n1 ∈ ["e4m3"; "e5m2"] → n2 ∈ ["e4m3"; "e5m2"] →
            short_label o1 n1 = short_label o2 n2 →
            (n1 = n2 → target_dtype o1 = target_dtype o2) → o1 = o2) as Hinj.
  { intros n1 n2 Hn1 Hn2 Hl Ht.
    destruct (short_label_inj o1 o2 n1 n2 Hn1 Hn2 Hl) as (Est & Eg & En).
    specialize (Ht En). destruct o1, o2. cbn in *. congruence. }
  destruct (decide (target_dtype o1 = Some (e4m3_dtype pf))) as [T1|N1];
    [|destruct (decide (target_dtype o1 = Some (e5m2_dtype pf))) as [T1|N1']];
    (destruct (decide (target_dtype o2 = Some (e4m3_dtype pf))) as [T2|N2];
     [|destruct (decide (target_dtype o2 = Some (e5m2_dtype pf))) as [T2|N2']]);
    intros [= <- _] [= E _]; try done;
    symmetry in E;
    (eapply Hinj; [| | exact E |]);
    rewrite ?elem_of_cons; try tauto; try congruence; done.
Qed.

(** X6 at the [input] and [weight] defaults after the first construction:
    they carry the same label, and are equal objects. *)
Lemma short_str_injective_witness :
  heap (Float8LinearConfig_new cuda_machine Float8LinearConfig_defaults
          state_after_import).2 !! default_cast_config_input
  = heap (Float8LinearConfig_new cuda_machine Float8LinearConfig_defaults
            state_after_import).2 !! default_cast_config_weight.
Proof.
  change (Some (mkCastConfig ScalingType.DYNAMIC ScalingGranularity.TENSORWISE
                  (Some torch.float8_e4m3fn))
          = Some (mkCastConfig ScalingType.DYNAMIC ScalingGranularity.TENSORWISE
                    (Some torch.float8_e4m3fn))).
  apply (f_equal Some).
  exact (short_str_injective cuda_machine
           (Float8LinearConfig_new cuda_machine Float8LinearConfig_defaults
              state_after_import).2
           (Float8LinearConfig_new cuda_machine Float8LinearConfig_defaults
              state_after_import).2 _ _
           default_cast_config_input default_cast_config_weight _ _
           "dyn_ten_e4m3" eq_refl eq_refl eq_refl eq_refl).
Defined.

(** *** Recipe names *)

(** X7.  Members and their values correspond one to one: looking up the
    value of a member gives the member back, a lookup that succeeds returns
    a member with that value, and no two members share a value.  The first
    step of [from_recipe_name] therefore returns the member for a member or
    for its value, raises the assertion error for every other string, never
    reaches the [ValueError] of the enum lookup, and leaves the state as it
    was. *)
Theorem recipe_name_round_trip :
  (∀ m, Float8LinearRecipeName.of_value (Float8LinearRecipeName.value m) = Some m) ∧
  (∀ name m, Float8LinearRecipeName.of_value name = Some m →
             Float8LinearRecipeName.value m = name) ∧
  (∀ m1 m2, Float8LinearRecipeName.value m1 = Float8LinearRecipeName.value m2 →
            m1 = m2) ∧
  (∀ arg s, ∃ r, recipe_name_of_arg arg s = (r, s) ∧
      match r with
      | Ok m => arg = ByMember m ∨ arg = ByStr (Float8LinearRecipeName.value m)
      | Raise (AssertionError _) => ∃ name, arg = ByStr name ∧ name ∉ valid_names
      | Raise _ => False
      end).
Proof.
  repeat split.
  - intros m. by apply of_value_Some.
  - intros name m. by apply of_value_Some.
  - intros m1 m2 E. apply (proj2 (of_value_Some _ m1)) in E.
    rewrite (proj2 (of_value_Some _ m2) eq_refl) in E. congruence.
  - intros arg s. rewrite recipe_name_of_arg_run.
    destruct arg as [m|name]; [eexists; split; [done|]; by left|].
    destruct (Float8LinearRecipeName.of_value name) as [m|] eqn:E.
    + eexists. split; [done|]. right. by apply of_value_Some in E as <-.
    + eexists. split; [done|]. exists name. split; [done|]. by apply of_value_None.
Qed.

(** X7 at the string [rowwise]. *)
Lemma recipe_name_round_trip_witness :
  Float8LinearRecipeName.value Float8LinearRecipeName.ROWWISE = "rowwise".
Proof.
  exact (proj1 (proj2 recipe_name_round_trip) "rowwise"
           Float8LinearRecipeName.ROWWISE eq_refl).
Defined.

(** *** [Float8LinearConfig] *)

(** X8.  The outcome of a construction whose six descriptors exist and
    which passes the all-gather check.  The error names the first of
    [input], [weight], [grad_output], in this order, whose two descriptors
    disagree once their unset target dtypes have been defaulted; the store
    then holds the writes made for the operands up to and including that
    one.  The assertion on the operands of a gemm is never the one that
    fires. *)
Theorem construction_outcome (pf : Platform) (fields : Float8LinearConfig)
    (s : PyState) :
  valid_descriptors (heap s) fields →
  fsdp_compatible (heap s) fields →
  let h1 := heap_after_input pf fields (heap s) in
  let h2 := heap_after_weight pf fields (heap s) in
  let h3 := resolved_heap pf fields (heap s) in
  Float8LinearConfig_new pf fields s =
    if decide (target_at h1 (cc_i fields) = target_at h1 (cc_i_gw fields)) then
      if decide (target_at h2 (cc_w fields) = target_at h2 (cc_w_gi fields)) then
        if decide (target_at h3 (cc_go fields) = target_at h3 (cc_go_gw fields)) then
          (Ok (populate_cast_overrides fields),
           mkPyState h3 (log s ++ warnings_of fields))
        else (Raise (dtype_mismatch "grad_output"), mkPyState h3 (log s))
      else (Raise (dtype_mismatch "weight"), mkPyState h2 (log s))
    else (Raise (dtype_mismatch "input"), mkPyState h1 (log s)).
Proof.
  intros V F. cbv zeta.
  unfold Float8LinearConfig_new, Float8LinearConfig_post_init.
  destruct (populate_cast_overrides_flags fields) as (Ew & Ef & Er).
  rewrite bind_run, check_fsdp_all_gather_run, Ew, Ef.
  pose proof V as V'. apply valid_descriptors_unfold in V'.
  destruct V' as (Hi & Higw & Hw & Hwgi & Hgo & Hgogw).
  destruct Hw as [w Hw]. unfold cc_w in Hw. rewrite Hw.
  assert (bool_decide (scaling_granularity w = ScalingGranularity.TENSORWISE)
          || negb (enable_fsdp_float8_all_gather fields) = true) as ->.
  { case_bool_decide as Hg; [done|]. cbn. by rewrite (F w Hw Hg). }
  destruct (populate_cast_overrides_refs fields)
    as (Ri & Rigw & Rw & Rwgi & Rgo & Rgogw).
  rewrite bind_run, check_gemms_Ok; [| by rewrite ?Ri, ?Rigw, ?Rgo ..].
  rewrite bind_run, resolve_dtypes_run by (by apply valid_descriptors_populate).
  cbv zeta. unfold heap_after_weight, heap_after_input.
  rewrite resolved_heap_populate, Ri, Rigw, Rw, Rwgi, Rgo, Rgogw.
  repeat (destruct (decide _); [|done]).
  rewrite bind_run. unfold warn_if_deprecated, warnings_of. rewrite Er.
  destruct (force_recompute_fp8_weight_in_bwd fields); cbn; [done|].
  by rewrite app_nil_r.
Qed.

(** X8 at a configuration whose [input] descriptors ask for e4m3 and
    e5m2. *)
Lemma construction_outcome_witness :
  Float8LinearConfig_new cuda_machine
    (with_descriptors 3 default_cast_config_weight
       default_cast_config_grad_output (Some 4) None None false)
    mismatch_state
  = (Raise (dtype_mismatch "input"), mismatch_state).
Proof.
  refine (construction_outcome cuda_machine
            (with_descriptors 3 default_cast_config_weight
               default_cast_config_grad_output (Some 4) None None false)
            mismatch_state _ _).
  - apply valid_descriptors_unfold. cbn. eauto 10.
  - by apply fsdp_compatible_off.
Defined.

Lemma fsdp_compatible_bool h self w :
  h !! cast_config_weight self = Some w →
  (fsdp_compatible h self ↔
   bool_decide (scaling_granularity w = ScalingGranularity.TENSORWISE)
   || negb (enable_fsdp_float8_all_gather self) = true).
Proof.
  intros Hw. split.
  - intros F. case_bool_decide as Hg; [done|]. cbn. by rewrite (F w Hw Hg).
  - intros Hb w' Hw' Hg. rewrite Hw in Hw'. injection Hw' as <-.
    apply orb_true_iff in Hb as [Hb|Hb].
    + by apply bool_decide_eq_true in Hb.
    + by apply negb_true_iff in Hb.
Qed.

(** X9.  When no override is passed, only the all-gather check can refuse a
    construction over existing descriptors: each operand's two descriptors
    are then one object.  In particular [Float8LinearConfig()] returns
    whatever earlier constructions have written into the three descriptors
    that the class shares as defaults. *)
Theorem construction_without_overrides (pf : Platform)
    (fields : Float8LinearConfig) (s : PyState) (w : CastConfig) :
  cast_config_input_for_grad_weight fields = None →
  cast_config_weight_for_grad_input fields = None →
  cast_config_grad_output_for_grad_weight fields = None →
  is_Some (heap s !! cast_config_input fields) →
  heap s !! cast_config_weight fields = Some w →
  is_Some (heap s !! cast_config_grad_output fields) →
  Float8LinearConfig_new pf fields s =
    if bool_decide (scaling_granularity w = ScalingGranularity.TENSORWISE)
       || negb (enable_fsdp_float8_all_gather fields)
    then (Ok (populate_cast_overrides fields),
          mkPyState (resolved_heap pf fields (heap s))
            (log s ++ warnings_of fields))
    else (Raise (AssertionError
                   ("enable_fsdp_float8_all_gather only supports tensorwise scaling granularity, got "
                    +:+ ScalingGranularity.str (scaling_granularity w))), s).
Proof.
  intros Oi Ow Ogo Hi Hw Hgo. unfold Float8LinearConfig_new.
  destruct (bool_decide _ || negb _) eqn:Hb.
  - apply post_init_Ok.
    + apply valid_descriptors_unfold.
      unfold cc_i, cc_i_gw, cc_w, cc_w_gi, cc_go, cc_go_gw.
      rewrite Oi, Ow, Ogo, Hw. cbn. eauto 10.
    + by apply (fsdp_compatible_bool _ _ w).
    + apply pairs_agree_unfold.
      unfold cc_i, cc_i_gw, cc_w, cc_w_gi, cc_go, cc_go_gw.
      by rewrite Oi, Ow, Ogo.
  - unfold Float8LinearConfig_post_init.
    destruct (populate_cast_overrides_flags fields) as (Ew & Ef & _).
    by rewrite bind_run, check_fsdp_all_gather_run, Ew, Ef, Hw, Hb.
Qed.

(** X9 at [Float8LinearConfig()] in a store where an earlier construction
    has already resolved the shared defaults. *)
Lemma construction_without_overrides_witness :
  is_Ok (Float8LinearConfig_new cuda_machine Float8LinearConfig_defaults
           (Float8LinearConfig_new cuda_machine Float8LinearConfig_defaults
              state_after_import).2).1 = true.
Proof.
  rewrite (construction_without_overrides cuda_machine
             Float8LinearConfig_defaults
             (Float8LinearConfig_new cuda_machine Float8LinearConfig_defaults
                state_after_import).2
             (mkCastConfig ScalingType.DYNAMIC ScalingGranularity.TENSORWISE
                (Some torch.float8_e4m3fn))
             eq_refl eq_refl eq_refl (mk_is_Some _ _ eq_refl) eq_refl
             (mk_is_Some _ _ eq_refl)).
  reflexivity.
Defined.

(** X10.  The configuration that a construction returns has the field
    values that were passed, except that no override is left unset: an
    override that was passed is kept, one that was not is the primary
    descriptor of its operand, the same object. *)
Theorem constructed_fields (pf : Platform) (fields c : Float8LinearConfig)
    (s s' : PyState) :
  Float8LinearConfig_new pf fields s = (Ok c, s') →
  cast_config_input c = cast_config_input fields ∧
  cast_config_weight c = cast_config_weight fields ∧
  cast_config_grad_output c = cast_config_grad_output fields ∧
  cast_config_input_for_grad_weight c
    = Some (default (cast_config_input fields)
              (cast_config_input_for_grad_weight fields)) ∧
  cast_config_weight_for_grad_input c
    = Some (default (cast_config_weight fields)
              (cast_config_weight_for_grad_input fields)) ∧
  cast_config_grad_output_for_grad_weight c
    = Some (default (cast_config_grad_output fields)
              (cast_config_grad_output_for_grad_weight fields)) ∧
  gemm_config_output c = gemm_config_output fields ∧
  gemm_config_grad_input c = gemm_config_grad_input fields ∧
  gemm_config_grad_weight c = gemm_config_grad_weight fields ∧
  enable_fsdp_float8_all_gather c = enable_fsdp_float8_all_gather fields ∧
  pad_inner_dim c = pad_inner_dim fields ∧
  emulate c = emulate fields ∧
  force_recompute_fp8_weight_in_bwd c = force_recompute_fp8_weight_in_bwd fields ∧
  round_scales_to_power_of_2 c = round_scales_to_power_of_2 fields.
Proof.
  unfold Float8LinearConfig_new. intros H.
  apply post_init_Ok_inv in H as (_ & _ & _ & -> & _).
  destruct fields as [i [i_gw|] w [w_gi|] go [go_gw|] ? ? ? ? ? ? ? ?];
    repeat split; reflexivity.
Qed.

(** X10 at the all-defaults construction. *)
Lemma constructed_fields_witness :
  cast_config_grad_output_for_grad_weight
    (populate_cast_overrides Float8LinearConfig_defaults)
  = Some default_cast_config_grad_output.
Proof.
  exact (proj1 (proj2 (proj2 (proj2 (proj2 (proj2
           (constructed_fields cuda_machine Float8LinearConfig_defaults _
              state_after_import _ eq_refl))))))).
Defined.

(** X11.  A call that returned returns again: repeating it with the same
    arguments in the store it left gives the same configuration and
    changes no object (the deprecation warning is logged once more if the
    flag is set). *)
Theorem construction_repeatable (pf : Platform) (fields c : Float8LinearConfig)
    (s s' : PyState) :
  Float8LinearConfig_new pf fields s = (Ok c, s') →
  Float8LinearConfig_new pf fields s'
  = (Ok c, mkPyState (heap s') (log s' ++ warnings_of fields)).
Proof.
  unfold Float8LinearConfig_new. intros H.
  apply post_init_Ok_inv in H as (V & F & A & -> & ->). cbn [heap log].
  set (h' := resolved_heap pf fields (heap s)).
  assert (resolved_heap pf fields h' = h') as Eh by by apply resolved_heap_idem.
  rewrite post_init_Ok; cbn [heap log].
  - by rewrite Eh.
  - unfold valid_descriptors in *.
    eapply Forall_impl; [exact V|]. intros x. by apply resolved_heap_is_Some.
  - intros w Hw Hg. apply resolved_heap_policy in Hw as (o & Ho & _ & Eg).
    apply (F o Ho). by rewrite <- Eg.
  - by rewrite Eh.
Qed.

(** X11 at the all-defaults construction. *)
Lemma construction_repeatable_witness :
  Float8LinearConfig_new cuda_machine Float8LinearConfig_defaults
    (Float8LinearConfig_new cuda_machine Float8LinearConfig_defaults
       state_after_import).2
  = Float8LinearConfig_new cuda_machine Float8LinearConfig_defaults
      state_after_import.
Proof.
  exact (construction_repeatable cuda_machine Float8LinearConfig_defaults _
           state_after_import _ eq_refl).
Defined.

(** X12.  A descriptor whose target dtype is set cannot be paired with one
    whose target dtype is unset, unless the set dtype is the one the unset
    descriptor is defaulted to: the preferred e4m3 type if that descriptor
    serves [input] or [weight], the preferred e5m2 type if it serves
    [grad_output] only.  Any other construction is refused. *)
Theorem half_specified_pair_is_refused (pf : Platform)
    (fields : Float8LinearConfig) (s : PyState) (p o : ref) (t : torch.dtype) :
  (p, o) ∈ operand_pairs fields ∨ (o, p) ∈ operand_pairs fields →
  is_Some (heap s !! o) →
  target_at (heap s) p = Some t →
  target_at (heap s) o = None →
  t ≠ (if decide (o ∈ input_descriptors fields ++ weight_descriptors fields)
       then e4m3_dtype pf else e5m2_dtype pf) →
  is_Ok (Float8LinearConfig_new pf fields s).1 = false.
Proof.
  intros Hpo Vo Hp Ho Ht. unfold Float8LinearConfig_new.
  destruct (Float8LinearConfig_post_init pf fields s) as [[c|e] s'] eqn:E;
    [exfalso | done].
  apply post_init_Ok_inv in E as (_ & _ & A & _).
  assert (target_at (resolved_heap pf fields (heap s)) p
          = target_at (resolved_heap pf fields (heap s)) o) as Epo.
  { unfold pairs_agree in A. rewrite Forall_forall in A.
    destruct Hpo as [Hpo|Hpo]; specialize (A _ Hpo); by cbn in A. }
  rewrite (target_at_resolved_set pf fields _ _ _ Hp) in Epo.
  rewrite (target_at_resolved pf fields _ _ Vo), Ho in Epo.
  assert (o ∈ input_descriptors fields ++ weight_descriptors fields
          ∨ o ∈ grad_output_descriptors fields) as Hin.
  { unfold operand_pairs, input_descriptors, weight_descriptors,
      grad_output_descriptors in *. cbn [app].
    rewrite !elem_of_cons, !elem_of_nil in *.
    destruct Hpo as [Hpo|Hpo];
      destruct Hpo as [[= -> ->]|[[= -> ->]|[[= -> ->]|[]]]]; tauto. }
  destruct (decide (o ∈ input_descriptors fields ++ weight_descriptors fields)).
  - congruence.
  - destruct Hin as [?|Hgo]; [done|]. rewrite decide_True in Epo by done.
    congruence.
Qed.

(** X12 at a [grad_output] descriptor that asks for e4m3 (object 3) with a
    fresh default object as its override: a descriptor that one construction
    has resolved as [input] is in this position afterwards. *)
Lemma half_specified_pair_is_refused_witness :
  is_Ok (Float8LinearConfig_new cuda_machine
           (with_descriptors default_cast_config_input default_cast_config_weight
              3 None None (Some default_cast_config_grad_output) false)
           mismatch_state).1 = false.
Proof.
  apply (half_specified_pair_is_refused cuda_machine _ mismatch_state
           3 default_cast_config_grad_output torch.float8_e4m3fn).
  - left. vm_compute. do 2 right. left.
  - by eexists.
  - reflexivity.
  - reflexivity.
  - vm_compute. discriminate.
Defined.

(** X13.  Validation looks at the six descriptors and at
    [enable_fsdp_float8_all_gather] only: two calls that agree on these
    behave alike in every store, whatever their gemm configurations and
    their other flags are.  They return or raise together, raise the same
    exception, and leave the same objects. *)
Theorem validation_reads_descriptors_only (pf : Platform)
    (a b : Float8LinearConfig) (s : PyState) :
  same_descriptors a b →
  is_Ok (Float8LinearConfig_new pf a s).1 = is_Ok (Float8LinearConfig_new pf b s).1 ∧
  (∀ e, (Float8LinearConfig_new pf a s).1 = Raise e
        ↔ (Float8LinearConfig_new pf b s).1 = Raise e) ∧
  heap (Float8LinearConfig_new pf a s).2 = heap (Float8LinearConfig_new pf b s).2.
Proof.
  intros (Ei & Eigw & Ew & Ewgi & Ego & Egogw & Ef).
  unfold Float8LinearConfig_new, Float8LinearConfig_post_init.
  assert (check_fsdp_all_gather (populate_cast_overrides a)
          = check_fsdp_all_gather (populate_cast_overrides b)) as ->.
  { destruct a as [? [?|] ? [?|] ? [?|] ? ? ? ? ? ? ? ?],
             b as [? [?|] ? [?|] ? [?|] ? ? ? ? ? ? ? ?];
      cbn in *; try done; by simplify_eq. }
  assert (gemm_operands (populate_cast_overrides a)
          = gemm_operands (populate_cast_overrides b)) as ->.
  { destruct a as [? [?|] ? [?|] ? [?|] ? ? ? ? ? ? ? ?],
             b as [? [?|] ? [?|] ? [?|] ? ? ? ? ? ? ? ?];
      cbn in *; try done; by simplify_eq. }
  assert (operand_dtypes pf (populate_cast_overrides a)
          = operand_dtypes pf (populate_cast_overrides b)) as ->.
  { destruct a as [? [?|] ? [?|] ? [?|] ? ? ? ? ? ? ? ?],
             b as [? [?|] ? [?|] ? [?|] ? ? ? ? ? ? ? ?];
      cbn in *; try done; by simplify_eq. }
  rewrite !bind_run.
  destruct (check_fsdp_all_gather (populate_cast_overrides b) s)
    as [[u1|e1] s1]; [|done].
  rewrite !bind_run.
  destruct (for_each (gemm_operands (populate_cast_overrides b))
              check_gemm_operands s1) as [[u2|e2] s2]; [|done].
  rewrite !bind_run.
  destruct (for_each (operand_dtypes pf (populate_cast_overrides b))
              resolve_operand_dtype s2) as [[u3|e3] s3]; [|done].
  rewrite !bind_run.
  rewrite (proj2 (frames_warn_if_deprecated_heap (populate_cast_overrides a) s3)).
  rewrite (proj2 (frames_warn_if_deprecated_heap (populate_cast_overrides b) s3)).
  cbn. repeat split; done.
Qed.

(** X13 at the all-defaults call and the same call with
    [round_scales_to_power_of_2], [pad_inner_dim] and [emulate] set. *)
Lemma validation_reads_descriptors_only_witness :
  heap (Float8LinearConfig_new cuda_machine Float8LinearConfig_defaults
          state_after_import).2
  = heap (Float8LinearConfig_new cuda_machine
            {| cast_config_input := default_cast_config_input;
               cast_config_input_for_grad_weight := None;
               cast_config_weight := default_cast_config_weight;
               cast_config_weight_for_grad_input := None;
               cast_config_grad_output := default_cast_config_grad_output;
               cast_config_grad_output_for_grad_weight := None;
               gemm_config_output := mkFloat8GemmConfig false;
               gemm_config_grad_input := mkFloat8GemmConfig true;
               gemm_config_grad_weight := mkFloat8GemmConfig true;
               enable_fsdp_float8_all_gather := false;
               pad_inner_dim := true;
               emulate := true;
               force_recompute_fp8_weight_in_bwd := true;
               round_scales_to_power_of_2 := true |}
            state_after_import).2.
Proof.
  apply (validation_reads_descriptors_only cuda_machine).
  by repeat split.
Defined.

(** *** Recipes *)

Lemma has_class_defaults_valid h :
  has_class_defaults h → valid_descriptors h Float8LinearConfig_defaults.
Proof.
  unfold has_class_defaults. rewrite !Forall_cons, Forall_nil.
  intros ((oi & Hi & _) & (ow & Hw & _) & (ogo & Hgo & _) & _).
  apply valid_descriptors_unfold. cbn. rewrite Hi, Hw, Hgo. eauto 10.
Qed.

Lemma recipe_config_tensorwise_run pf s :
  has_class_defaults (heap s) →
  recipe_config pf Float8LinearRecipeName.TENSORWISE s
  = (Ok (populate_cast_overrides Float8LinearConfig_defaults),
     mkPyState (resolved_heap pf Float8LinearConfig_defaults (heap s)) (log s)).
Proof.
  intros Hd. unfold recipe_config, Float8LinearConfig_new.
  rewrite post_init_Ok.
  - cbn [warnings_of Float8LinearConfig_defaults force_recompute_fp8_weight_in_bwd].
    by rewrite app_nil_r.
  - by apply has_class_defaults_valid.
  - by apply fsdp_compatible_off.
  - by apply pairs_agree_unfold.
Qed.

Lemma disabled_at_ensure r d h l :
  disabled_at (ensure_dtype r d h) l = disabled_at h l.
Proof.
  unfold disabled_at. rewrite ensure_dtype_lookup.
  destruct (h !! l) as [o|]; [|done]. cbn.
  destruct (decide (l = r)); [|done]. unfold fill_dtype.
  by destruct (target_dtype o).
Qed.

Lemma disabled_at_resolved pf self h l :
  disabled_at (resolved_heap pf self h) l = disabled_at h l.
Proof. unfold resolved_heap. by rewrite !disabled_at_ensure. Qed.

Lemma from_recipe_name_Ok_inv pf arg s c s' :
  from_recipe_name pf arg s = (Ok c, s') →
  ∃ m, (arg = ByMember m ∨ arg = ByStr (Float8LinearRecipeName.value m)) ∧
       recipe_config pf m s = (Ok c, s').
Proof.
  unfold from_recipe_name. rewrite bind_run, recipe_name_of_arg_run.
  destruct arg as [m|name].
  - intros H. exists m. eauto.
  - destruct (Float8LinearRecipeName.of_value name) as [m|] eqn:E; [|done].
    intros H. exists m. apply of_value_Some in E as <-. eauto.
Qed.

Lemma from_recipe_name_member pf m s :
  from_recipe_name pf (ByMember m) s = recipe_config pf m s ∧
  from_recipe_name pf (ByStr (Float8LinearRecipeName.value m)) s
  = recipe_config pf m s.
Proof.
  unfold from_recipe_name. rewrite !bind_run, !recipe_name_of_arg_run.
  by rewrite (proj2 (of_value_Some _ m) eq_refl).
Qed.

(** X14.  In a store that holds the class defaults every recipe constructs,
    by member and by string alike; the class defaults are still there
    afterwards, so that recipes can be asked for again and again, and
    nothing is logged. *)
Theorem every_recipe_constructs (pf : Platform)
    (m : Float8LinearRecipeName.t) (s : PyState) :
  has_class_defaults (heap s) →
  ∃ c s',
    from_recipe_name pf (ByMember m) s = (Ok c, s') ∧
    from_recipe_name pf (ByStr (Float8LinearRecipeName.value m)) s = (Ok c, s') ∧
    has_class_defaults (heap s') ∧
    log s' = log s.
Proof.
  intros Hd. destruct (from_recipe_name_member pf m s) as [-> ->].
  destruct m.
  - rewrite recipe_config_tensorwise_run by done.
    eexists _, _. split; [reflexivity|]. split; [reflexivity|].
    split; [|reflexivity]. cbn [heap].
    eapply heap_frame_class_defaults; [|done].
    pose proof (post_init_frames pf Float8LinearConfig_defaults s) as Hfr.
    rewrite post_init_Ok in Hfr;
      [exact Hfr | by apply has_class_defaults_valid
      | by apply fsdp_compatible_off | by apply pairs_agree_unfold].
  - destruct s as [h lg]. rewrite recipe_config_rowwise_run.
    eexists _, _. split; [reflexivity|]. split; [reflexivity|].
    split; [|reflexivity]. cbn [heap].
    by apply has_class_defaults_app.
  - destruct s as [h lg]. rewrite recipe_config_rowwise_with_gw_hp_run.
    eexists _, _. split; [reflexivity|]. split; [reflexivity|].
    split; [|reflexivity]. cbn [heap].
    by apply has_class_defaults_app.
Qed.

(** X14 for the tensorwise recipe right after import. *)
Lemma every_recipe_constructs_witness :
  ∃ c s',
    from_recipe_name cuda_machine (ByMember Float8LinearRecipeName.TENSORWISE)
      state_after_import = (Ok c, s') ∧
    from_recipe_name cuda_machine (ByStr "tensorwise") state_after_import
    = (Ok c, s') ∧
    has_class_defaults (heap s') ∧
    log s' = log state_after_import.
Proof.
  apply (every_recipe_constructs cuda_machine Float8LinearRecipeName.TENSORWISE
           state_after_import).
  repeat constructor; by eexists.
Defined.

(** X15.  Whatever the recipe, the configuration it returns has the
    all-gather, padding, emulation and deprecated flags off and fast
    accumulation on for the [output] gemm only;
    [round_scales_to_power_of_2] is set by the rowwise recipe and by no
    other. *)
Theorem recipe_flags (pf : Platform) (arg : RecipeArg) (s s' : PyState)
    (c : Float8LinearConfig) :
  from_recipe_name pf arg s = (Ok c, s') →
  enable_fsdp_float8_all_gather c = false ∧
  pad_inner_dim c = false ∧
  emulate c = false ∧
  force_recompute_fp8_weight_in_bwd c = false ∧
  gemm_config_output c = mkFloat8GemmConfig true ∧
  gemm_config_grad_input c = mkFloat8GemmConfig false ∧
  gemm_config_grad_weight c = mkFloat8GemmConfig false ∧
  (round_scales_to_power_of_2 c = true
   ↔ arg = ByMember Float8LinearRecipeName.ROWWISE ∨ arg = ByStr "rowwise").
Proof.
  intros H. apply from_recipe_name_Ok_inv in H as (m & Harg & H).
  assert (c = match m with
              | Float8LinearRecipeName.TENSORWISE =>
                  populate_cast_overrides Float8LinearConfig_defaults
              | Float8LinearRecipeName.ROWWISE =>
                  shift (length (heap s)) (populate_cast_overrides rowwise_fields)
              | Float8LinearRecipeName.ROWWISE_WITH_GW_HP =>
                  shift (length (heap s)) rowwise_with_gw_hp_fields
              end) as ->.
  { destruct m.
    - unfold recipe_config, Float8LinearConfig_new in H.
      by apply post_init_Ok_inv in H as (_ & _ & _ & -> & _).
    - destruct s as [h lg]. rewrite recipe_config_rowwise_run in H.
      by injection H as <- _.
    - destruct s as [h lg]. rewrite recipe_config_rowwise_with_gw_hp_run in H.
      by injection H as <- _. }
  do 7 (split; [by destruct m|]).
  destruct m, Harg as [->| ->]; cbn; split;
    try done; try (by intros [[=]|[=]]); eauto.
Qed.

(** X15 at the tensorwise recipe right after import. *)
Lemma recipe_flags_witness :
  gemm_config_output (populate_cast_overrides Float8LinearConfig_defaults)
  = mkFloat8GemmConfig true.
Proof.
  exact (proj1 (proj2 (proj2 (proj2 (proj2
           (recipe_flags cuda_machine (ByStr "tensorwise") state_after_import
              _ _ eq_refl)))))).
Defined.

(** X16.  The tensorwise recipe creates no object: every configuration it
    returns refers to the same three descriptors, the defaults of the
    class.  The two rowwise recipes create three and six descriptors at the
    end of the store, refer to these only, and leave every older object as
    it was. *)
Theorem recipe_store_effect (pf : Platform) (s : PyState) :
  (∀ c s', from_recipe_name pf (ByMember Float8LinearRecipeName.TENSORWISE) s
           = (Ok c, s') →
     length (heap s') = length (heap s) ∧
     descriptors c
     = [default_cast_config_input; default_cast_config_input;
        default_cast_config_weight; default_cast_config_weight;
        default_cast_config_grad_output; default_cast_config_grad_output]) ∧
  (∃ c, from_recipe_name pf (ByMember Float8LinearRecipeName.ROWWISE) s
        = (Ok c, mkPyState
                   (heap s ++
                    replicate 3
                      (mkCastConfig ScalingType.DYNAMIC ScalingGranularity.AXISWISE
                         (Some (e4m3_dtype pf))))
                   (log s)) ∧
        descriptors c
        = (λ k, length (heap s) + k) <$> [0; 0; 1; 1; 2; 2]) ∧
  (∃ c new, from_recipe_name pf (ByMember Float8LinearRecipeName.ROWWISE_WITH_GW_HP) s
            = (Ok c, mkPyState (heap s ++ new) (log s)) ∧
            length new = 6 ∧
            descriptors c
            = (λ k, length (heap s) + k) <$> [0; 4; 1; 3; 2; 5]).
Proof.
  split; [|split].
  - intros c s'. rewrite (proj1 (from_recipe_name_member pf _ s)).
    unfold recipe_config, Float8LinearConfig_new. intros H.
    apply post_init_Ok_inv in H as (_ & _ & _ & -> & ->).
    cbn [heap]. by rewrite resolved_heap_length.
  - rewrite (proj1 (from_recipe_name_member pf _ s)).
    destruct s as [h lg]. rewrite recipe_config_rowwise_run.
    eexists. split; reflexivity.
  - rewrite (proj1 (from_recipe_name_member pf _ s)).
    destruct s as [h lg]. rewrite recipe_config_rowwise_with_gw_hp_run.
    eexists _, _. repeat split; reflexivity.
Qed.

(** X16 at the tensorwise recipe right after import. *)
Lemma recipe_store_effect_witness :
  length (heap (from_recipe_name cuda_machine
                  (ByMember Float8LinearRecipeName.TENSORWISE)
                  state_after_import).2) = 3.
Proof.
  exact (proj1 (proj1 (recipe_store_effect cuda_machine state_after_import)
                  _ _ eq_refl)).
Defined.

(** X17.  What the recipes build is consistent in the sense that the gemm
    check is meant to enforce: in the configuration that a recipe returns,
    the two operands of each of the three gemms are both [DISABLED] or both
    not. *)
Theorem recipes_pair_gemm_operands (pf : Platform) (arg : RecipeArg)
    (s s' : PyState) (c : Float8LinearConfig) :
  has_class_defaults (heap s) →
  from_recipe_name pf arg s = (Ok c, s') →
  gemm_operands_agree (heap s') c.
Proof.
  intros Hd H. apply from_recipe_name_Ok_inv in H as (m & _ & H).
  unfold gemm_operands_agree, gemm_operands.
  rewrite !Forall_cons, Forall_nil. cbn [fst snd].
  destruct m.
  - rewrite recipe_config_tensorwise_run in H by done. injection H as <- <-.
    cbn [heap]. rewrite !disabled_at_resolved.
    unfold has_class_defaults in Hd. rewrite !Forall_cons, Forall_nil in Hd.
    destruct Hd as ((oi & Hi & Sti & _) & (ow & Hw & Stw & _)
                    & (ogo & Hgo & Stgo & _) & _).
    unfold disabled_at.
    change (cc_i _) with default_cast_config_input.
    change (cc_w _) with default_cast_config_weight.
    change (cc_go _) with default_cast_config_grad_output.
    change (cc_i_gw _) with default_cast_config_input.
    change (cc_w_gi _) with default_cast_config_weight.
    change (cc_go_gw _) with default_cast_config_grad_output.
    rewrite Hi, Hw, Hgo. cbn. by rewrite Sti, Stw, Stgo.
  - destruct s as [h lg]. rewrite recipe_config_rowwise_run in H.
    injection H as <- <-. cbn [heap]. unfold disabled_at.
    change (cc_i _) with (length h + 0).
    change (cc_w _) with (length h + 1).
    change (cc_go _) with (length h + 2).
    change (cc_i_gw _) with (length h + 0).
    change (cc_w_gi _) with (length h + 1).
    change (cc_go_gw _) with (length h + 2).
    by rewrite !lookup_snoc_plus.
  - destruct s as [h lg]. rewrite recipe_config_rowwise_with_gw_hp_run in H.
    injection H as <- <-. cbn [heap]. unfold disabled_at.
    change (cc_i _) with (length h + 0).
    change (cc_w _) with (length h + 1).
    change (cc_go _) with (length h + 2).
    change (cc_i_gw _) with (length h + 4).
    change (cc_w_gi _) with (length h + 3).
    change (cc_go_gw _) with (length h + 5).
    by rewrite !lookup_snoc_plus.
Qed.

(** X17 at the rowwise-with-high-precision-grad-weight recipe right after
    import. *)
Lemma recipes_pair_gemm_operands_witness :
  gemm_operands_agree
    (heap (from_recipe_name cuda_machine (ByStr "rowwise_with_gw_hp")
             state_after_import).2)
    (shift 3 rowwise_with_gw_hp_fields).
Proof.
  refine (recipes_pair_gemm_operands cuda_machine (ByStr "rowwise_with_gw_hp")
            state_after_import _ _ _ eq_refl).
  repeat constructor; by eexists.
Defined.
